(** * Streaming_ETL: the Kafka -> Spark -> Postgres temperature pipeline

    A shallow embedding of [device_streaming_with_kafka.py].  The program is
    a chain of Spark DataFrame transformations; a DataFrame is modelled as
    the list of its rows, each stage's schema as a record, a nullable SQL
    value as an [option], and a column expression as a function from a row
    to the value it evaluates to.  Module [Spark] gives the built-ins the
    program calls, module [Streaming_ETL] the program itself, in the order
    of the source. *)

From Stdlib Require Import ZArith Strings.Byte Ascii String List Bool Lia.
From Stdlib Require Import Permutation PrimFloat Uint63 SpecFloat FloatOps FloatAxioms.
Import ListNotations.
Local Open Scope Z_scope.
Set Warnings "-register-all".

(* ================================================================== *)
(** * Spark built-ins *)
(* ================================================================== *)

Module Spark.

(** ** Errors and the evaluation monad *)

(** The runtime errors the expressions of this program can raise. *)
Inductive SparkError : Set :=
| DIVIDE_BY_ZERO
| INVALID_INDEX_OF_ZERO
| INVALID_ARRAY_INDEX_IN_ELEMENT_AT
| CAST_INVALID_INPUT
| INTERNAL_ERROR.

Inductive result (A : Type) : Type :=
| Ok (a : A)
| Raise (e : SparkError).
Arguments Ok {A} a.
Arguments Raise {A} e.

Definition bind {A B : Type} (m : result A) (k : A -> result B) : result B :=
  match m with
  | Ok a => k a
  | Raise e => Raise e
  end.

Notation "x <- m ;; k" := (bind m (fun x => k))
  (at level 61, m at next level, right associativity).

(** [Row.map]-like traversal of a frame: the first row that raises fails
    the whole job. *)
Fixpoint mapM {A B : Type} (f : A -> result B) (l : list A) : result (list B) :=
  match l with
  | [] => Ok []
  | a :: l' => b <- f a ;; bs <- mapM f l' ;; Ok (b :: bs)
  end.

(** ** Session configuration

    The only setting the expressions below depend on.  With
    [spark.sql.ansi.enabled] off (the default through Spark 3.x) an invalid
    cast, a division by zero and an out-of-range [element_at] yield NULL;
    with it on they raise. *)
Record SQLConf : Set := { ansi_enabled : bool }.

(** ** Numbers

    [DoubleType] is IEEE binary64, Rocq's primitive [float].  A [FloatType]
    (binary32) value is carried as the binary64 number of the same value:
    every binary32 number is a binary64 number, so the implicit cast that
    Spark inserts from float to double changes nothing. *)
Definition double : Set := float.
Definition float32 : Set := float.

Definition float_to_double (x : float32) : double := x.

(** Cast of an [IntegerType] value to double (exact below 2^53). *)
Definition int_to_double (n : Z) : double :=
  if n <? 0 then PrimFloat.opp (PrimFloat.of_uint63 (Uint63.of_Z (- n)))
  else PrimFloat.of_uint63 (Uint63.of_Z n).

(** [a + b] on nullable doubles: NULL when either side is. *)
Definition add (a b : option double) : option double :=
  match a, b with
  | Some x, Some y => Some (PrimFloat.add x y)
  | _, _ => None
  end.

(** [a / b] with a double dividend and an integer divisor, which Spark casts
    to double.  As in [DivModLike.eval]: NULL when the divisor is NULL, or is
    zero without ANSI; NULL when the dividend is NULL; DIVIDE_BY_ZERO when
    both are there, the divisor is zero and ANSI is on.  The cast of the
    divisor is exact, so its zero test is made on the integer. *)
Definition divide (conf : SQLConf) (a : option double) (b : option Z)
  : result (option double) :=
  match b with
  | None => Ok None
  | Some n =>
      if (n =? 0) && negb (ansi_enabled conf) then Ok None
      else match a with
           | None => Ok None
           | Some x =>
               if n =? 0 then Raise DIVIDE_BY_ZERO
               else Ok (Some (PrimFloat.div x (int_to_double n)))
           end
  end.

(** ** Arrays and maps

    [ArrayType(t, containsNull = true)] is a list of nullable elements; a
    [MapType] value keeps its entries in insertion order, as Spark's
    [ArrayBasedMapData] does. *)
Definition array (A : Type) : Type := list (option A).
Definition map_data (K V : Type) : Type := list (K * option V).

(** [aggregate(arr, zero, merge)]: a left fold, NULL on a NULL array. *)
Definition aggregate {A B : Type} (arr : option (array A)) (zero : option B)
  (merge : option B -> option A -> option B) : option B :=
  match arr with
  | None => None
  | Some l => fold_left merge l zero
  end.

(** [size(arr)]: the element count; for a NULL array -1, or NULL under
    ANSI (where [spark.sql.legacy.sizeOfNull] is off). *)
Definition size {A : Type} (conf : SQLConf) (arr : option (array A)) : option Z :=
  match arr with
  | Some l => Some (Z.of_nat (List.length l))
  | None => if ansi_enabled conf then None else Some (-1)
  end.

(** [map_values(m)]: the values, in the order of the entries. *)
Definition map_values {K V : Type} (m : option (map_data K V)) : option (array V) :=
  match m with
  | None => None
  | Some entries => Some (List.map snd entries)
  end.

(** [element_at(arr, idx)]: 1-based, a negative index counts from the end;
    index 0 always raises; an index past the end is NULL, or raises under
    ANSI. *)
Definition element_at {A : Type} (conf : SQLConf) (arr : option (array A))
  (idx : option Z) : result (option A) :=
  match arr, idx with
  | Some l, Some i =>
      let n := Z.of_nat (List.length l) in
      if i =? 0 then Raise INVALID_INDEX_OF_ZERO
      else if n <? Z.abs i then
        if ansi_enabled conf then Raise INVALID_ARRAY_INDEX_IN_ELEMENT_AT
        else Ok None
      else
        let pos := if 0 <? i then i - 1 else n + i in
        Ok (List.nth (Z.to_nat pos) l None)
  | _, _ => Ok None
  end.

(** ** Columns

    A column over rows of type [R]: evaluated on a row it gives a nullable
    value or raises.  Evaluation is lazy where Spark's is: [when] evaluates
    its value only on the rows where the condition holds, [coalesce] stops
    at its first non-NULL argument. *)
Definition Column (R A : Type) : Type := R -> result (option A).

Definition col {R A : Type} (field : R -> option A) : Column R A :=
  fun r => Ok (field r).

Definition lit {R A : Type} (a : A) : Column R A :=
  fun _ => Ok (Some a).

Definition isNotNull {R A : Type} (c : Column R A) : Column R bool :=
  fun r => v <- c r ;;
           Ok (Some (match v with Some _ => true | None => false end)).

(** [F.when(cond, value)] with no [otherwise]: NULL where [cond] is not
    true. *)
Definition when {R A : Type} (cond : Column R bool) (value : Column R A)
  : Column R A :=
  fun r => c <- cond r ;;
           match c with
           | Some true => value r
           | _ => Ok None
           end.

Fixpoint coalesce {R A : Type} (cols : list (Column R A)) : Column R A :=
  fun r =>
    match cols with
    | [] => Ok None
    | c :: cols' =>
        v <- c r ;;
        match v with
        | Some a => Ok (Some a)
        | None => coalesce cols' r
        end
    end.

(** Implicit cast of a float column to double. *)
Definition cast_double {R : Type} (c : Column R float32) : Column R double :=
  fun r => v <- c r ;; Ok (option_map float_to_double v).

(** ** Filling NULLs: [DataFrame.na.fill]

    [fillna(v)] with a number rewrites the columns of a numeric type only:
    each becomes [coalesce(nanvl(c, NULL), cast(v as type))], NaN counting as
    missing in a float or double column; every other column is passed
    through as it is. *)
Inductive DataType : Set :=
| BinaryType | StringType | BooleanType | TimestampType
| IntegerType | LongType | FloatType | DoubleType.

Definition is_numeric (t : DataType) : bool :=
  match t with
  | IntegerType | LongType | FloatType | DoubleType => true
  | _ => false
  end.

(** What a Rocq type stands for as a column type: its Spark type, the NaN
    test of [nanvl] and the cast of the fill value to it. *)
Class ColumnType (A : Type) : Type := {
  data_type : DataType;
  is_nan : A -> bool;
  cast_fill : double -> option A
}.

#[export] Instance string_column : ColumnType string := {
  data_type := StringType;
  is_nan := fun _ => false;
  cast_fill := fun _ => None
}.

#[export] Instance double_column : ColumnType double := {
  data_type := DoubleType;
  is_nan := fun x => negb (PrimFloat.eqb x x);
  cast_fill := fun v => Some v
}.

Definition fill_column {A : Type} `{ColumnType A} (v : double) (c : option A)
  : option A :=
  if is_numeric data_type then
    match c with
    | Some a => if is_nan a then cast_fill v else Some a
    | None => cast_fill v
    end
  else c.

(** ** JSON text

    The tree Jackson reads from a text.  A number keeps its lexeme: what it
    is worth depends on the type it is read at. *)
Inductive json : Type :=
| JNull
| JBool (b : bool)
| JNumber (lexeme : string)
| JString (s : string)
| JArray (items : list json)
| JObject (fields : list (string * json)).

(** [TimestampType]: microseconds since the epoch. *)
Definition timestamp : Set := Z.

(** The text routines of the JVM that Spark calls and this development does
    not look into. *)
Class TextRoutines : Type := {
  (** Jackson reading the JSON value a text starts with; [None] when it
      raises [JsonProcessingException]. *)
  parse_json : string -> option json;
  (** Jackson's generator writing a tree back as text. *)
  to_text : json -> string;
  (** [cast(s as float)] and [cast(s as timestamp)]; [None] on a text the
      cast does not accept. *)
  string_to_float : string -> option float32;
  string_to_timestamp : string -> option timestamp;
  (** [JacksonParser]'s converter of a scalar token to [FloatType]; [None]
      when it rejects the token. *)
  json_to_float : json -> option float32
}.

Section Text.
Context {T : TextRoutines}.

(** [GetJsonObject.evaluatePath] on a path of named fields
    ['$.a.b...']: in an object, the fields are tried in order; one whose name
    matches and whose value is not null is descended into, and the first
    that yields a match is the result. *)
Fixpoint evaluate_path (path : list string) (j : json) : option json :=
  match path with
  | [] => Some j
  | name :: path' =>
      match j with
      | JObject fields =>
          (fix scan (fs : list (string * json)) : option json :=
             match fs with
             | [] => None
             | (k, v) :: fs' =>
                 if String.eqb k name then
                   match v with
                   | JNull => scan fs'
                   | _ => match evaluate_path path' v with
                          | Some found => Some found
                          | None => scan fs'
                          end
                   end
                 else scan fs'
             end) fields
      | _ => None
      end
  end.

(** [get_json_object(text, path)]: NULL on a NULL or unparseable text and
    on a path that matches nothing; a string is returned without its quotes,
    any other value as JSON text. *)
Definition get_json_object (text : option string) (path : list string)
  : option string :=
  match text with
  | None => None
  | Some s =>
      match parse_json s with
      | None => None
      | Some j =>
          match evaluate_path path j with
          | None => None
          | Some (JString t) => Some t
          | Some v => Some (to_text v)
          end
      end
  end.

(** [from_json(text, 'array<float>')] in its default PERMISSIVE mode: NULL
    on a text that is NULL, is not JSON or is not an array; an array whose
    every element is null or converts is read as it stands; an element that
    does not convert fails the job with INTERNAL_ERROR. *)
Fixpoint convert_array (items : list json) : result (array float32) :=
  match items with
  | [] => Ok []
  | JNull :: rest => others <- convert_array rest ;; Ok (None :: others)
  | j :: rest =>
      match json_to_float j with
      | None => Raise INTERNAL_ERROR
      | Some x => others <- convert_array rest ;; Ok (Some x :: others)
      end
  end.

Definition read_array_float (text : option string)
  : result (option (array float32)) :=
  match text with
  | None => Ok None
  | Some s =>
      match parse_json s with
      | Some (JArray items) => a <- convert_array items ;; Ok (Some a)
      | _ => Ok None
      end
  end.

(** [from_json(text, 'map<string,float>')]: NULL unless the text is an
    object whose every value is null or converts; the entries keep the
    order of the text. *)
Fixpoint convert_map (fields : list (string * json))
  : option (map_data string float32) :=
  match fields with
  | [] => Some []
  | (k, JNull) :: rest => option_map (cons (k, None)) (convert_map rest)
  | (k, j) :: rest =>
      match json_to_float j with
      | None => None
      | Some x => option_map (cons (k, Some x)) (convert_map rest)
      end
  end.

Definition read_map_string_float (text : option string)
  : option (map_data string float32) :=
  match text with
  | None => None
  | Some s =>
      match parse_json s with
      | Some (JObject fields) => convert_map fields
      | _ => None
      end
  end.

(** [F.from_json(c, schema)] on a string column, at the two schemas the
    program uses. *)
Definition from_json_array_float {R : Type} (c : Column R string)
  : Column R (array float32) :=
  fun r => v <- c r ;; read_array_float v.

Definition from_json_map_string_float {R : Type} (c : Column R string)
  : Column R (map_data string float32) :=
  fun r => v <- c r ;; Ok (read_map_string_float v).

(** A cast from string: NULL stays NULL; a text the target type does not
    accept is NULL, or CAST_INVALID_INPUT under ANSI. *)
Definition cast_from_string {R A : Type} (conf : SQLConf)
  (read : string -> option A) (c : Column R string) : Column R A :=
  fun r =>
    v <- c r ;;
    match v with
    | None => Ok None
    | Some s =>
        match read s with
        | Some a => Ok (Some a)
        | None => if ansi_enabled conf then Raise CAST_INVALID_INPUT else Ok None
        end
    end.

Definition cast_float {R : Type} (conf : SQLConf) (c : Column R string)
  : Column R float32 :=
  cast_from_string conf string_to_float c.

Definition cast_timestamp {R : Type} (conf : SQLConf) (c : Column R string)
  : Column R timestamp :=
  cast_from_string conf string_to_timestamp c.

(** [cast('string')] of a column that is a string already. *)
Definition cast_string {R : Type} (c : Column R string) : Column R string := c.

End Text.

End Spark.

(* ================================================================== *)
(** * The program *)
(* ================================================================== *)

Module Streaming_ETL.
Import Spark.

(** ** Schemas, one record per stage *)

(** The Kafka source's rows, as [extract] loads them. *)
Module Source.
Record Row : Type := {
  key : option (list byte);
  value : option (list byte);
  topic : string;
  partition : Z;
  offset : Z;
  timestamp : Z;
  timestampType : Z
}.
End Source.

(** The output of [process]. *)
Module Processed.
Record Row : Type := {
  key : option string;
  json_value : option string
}.
End Processed.

(** The first [select] of [transform]: the decoded fields. *)
Module Intermediate.
Record Row : Type := {
  key : option string;
  device : option string;
  collected_at : option timestamp;
  thermal_zones : option (array float32);
  sensors_cpu : option float32;
  sensors : option (map_data string float32)
}.
End Intermediate.

(** The frame after [withColumn('cpu_value', ...)]. *)
Module Derived.
Record Row : Type := {
  fields : Intermediate.Row;
  cpu_value : option double
}.
End Derived.

(** The output of [transform], written to the sink. *)
Module Canonical.
Record Row : Type := {
  key : option string;
  device : option string;
  collected_at : option timestamp;
  cpu_temp : option double;
  gpu_temp : Z
}.
End Canonical.

(** [config['database_info']]. *)
Record DatabaseInfo : Set := {
  db_url : string;
  table : string;
  user : string;
  password : string;
  driver : string;
  mode : string
}.

(** The session [__init__] builds: it names the application and sets the
    two jar options; every SQL setting keeps its default. *)
Definition session_conf : SQLConf := {| ansi_enabled := false |}.

(** ** [process] *)

(** [cast('string')] of a binary column: the same bytes, read as text. *)
Definition binary_to_string (b : list byte) : string := string_of_list_byte b.

Definition fillna (v : double) (df : list Processed.Row) : list Processed.Row :=
  List.map (fun r => {| Processed.key := fill_column v (Processed.key r);
                        Processed.json_value := fill_column v (Processed.json_value r) |})
           df.

Definition process (input_df : list Source.Row) : list Processed.Row :=
  let processed_df :=
    List.map (fun r => {| Processed.key := option_map binary_to_string (Source.key r);
                          Processed.json_value := option_map binary_to_string (Source.value r) |})
             input_df in
  fillna (int_to_double 0) processed_df.

(** ** [transform] *)

Section Transform.
Context {T : TextRoutines}.
Variable conf : SQLConf.

(** [F.expr("get_json_object(json_value, '$.a.b')")]. *)
Definition json_field (path : list string) : Column Processed.Row string :=
  fun r => Ok (get_json_object (Processed.json_value r) path).

(** The first [select]: the key, and the five fields read at the paths
    [$.device], [$.collected_at], [$.cpu.thermal_zones], [$.cpu.sensors.CPU]
    and [$.cpu.sensors]. *)
Definition select_fields (r : Processed.Row) : result Intermediate.Row :=
  device <- cast_string (json_field ["device"%string]) r ;;
  collected_at <- cast_timestamp conf (json_field ["collected_at"%string]) r ;;
  thermal_zones <-
    from_json_array_float (json_field ["cpu"; "thermal_zones"]%string) r ;;
  sensors_cpu <- cast_float conf (json_field ["cpu"; "sensors"; "CPU"]%string) r ;;
  sensors <-
    from_json_map_string_float (json_field ["cpu"; "sensors"]%string) r ;;
  Ok {| Intermediate.key := Processed.key r;
        Intermediate.device := device;
        Intermediate.collected_at := collected_at;
        Intermediate.thermal_zones := thermal_zones;
        Intermediate.sensors_cpu := sensors_cpu;
        Intermediate.sensors := sensors |}.

(** [aggregate(thermal_zones, cast(0.0 as double), (acc, x) -> acc + x)
     / size(thermal_zones)]. *)
Definition thermal_zones_mean : Column Intermediate.Row double :=
  fun r =>
    divide conf
      (aggregate (Intermediate.thermal_zones r) (Some (int_to_double 0))
                 (fun acc x => add acc (option_map float_to_double x)))
      (size conf (Intermediate.thermal_zones r)).

(** [element_at(map_values(sensors), 1)]. *)
Definition first_sensor : Column Intermediate.Row float32 :=
  fun r => element_at conf (map_values (Intermediate.sensors r)) (Some 1).

(** The expression of the [cpu_value] column. *)
Definition cpu_value : Column Intermediate.Row double :=
  coalesce [
    when (isNotNull (col Intermediate.thermal_zones)) thermal_zones_mean;
    when (isNotNull (col Intermediate.sensors_cpu))
         (cast_double (col Intermediate.sensors_cpu));
    when (isNotNull (col Intermediate.sensors)) (cast_double first_sensor)
  ].

Definition with_cpu_value (r : Intermediate.Row) (v : option double) : Derived.Row :=
  {| Derived.fields := r; Derived.cpu_value := v |}.

(** The last [select] and [withColumn("gpu_temp", F.lit(0))]. *)
Definition select_output (d : Derived.Row) : Canonical.Row :=
  {| Canonical.key := Intermediate.key (Derived.fields d);
     Canonical.device := Intermediate.device (Derived.fields d);
     Canonical.collected_at := Intermediate.collected_at (Derived.fields d);
     Canonical.cpu_temp := Derived.cpu_value d;
     Canonical.gpu_temp := 0 |}.

(** [withColumn('cpu_value', ...)] and the last [select], on one decoded
    row. *)
Definition derive_row (i : Intermediate.Row) : result Canonical.Row :=
  v <- cpu_value i ;;
  Ok (select_output (with_cpu_value i v)).

(** What [transform] does to one row. *)
Definition transform_row (r : Processed.Row) : result Canonical.Row :=
  i <- select_fields r ;;
  derive_row i.

Definition transform (processed_df : list Processed.Row)
  : result (list Canonical.Row) :=
  mapM transform_row processed_df.

End Transform.

(** ** [write_to_postgres] and [start_streaming] *)

Section Streaming.
Context {T : TextRoutines}.

(** The destination relation and the JDBC writer behind
    [batch_df.write.format("jdbc")...save()]: given the connection options
    and the write mode it leaves the relation in a new state and returns, or
    raises. *)
Variable Table : Type.

Inductive SaveOutcome : Type :=
| Saved (t : Table)
| SaveFailed (t : Table) (reason : string).

Variable jdbc_save : DatabaseInfo -> list Canonical.Row -> Table -> SaveOutcome.

Variable database_info : DatabaseInfo.

(** [write_to_postgres(batch_df, _)]: one [save] with the configured
    options; nothing is caught, so a failure of the writer leaves the
    function as an exception. *)
Definition write_to_postgres (batch_df : list Canonical.Row) (batch_id : Z)
  (t : Table) : SaveOutcome :=
  jdbc_save database_info batch_df t.

(** Source positions: the next offset to read, per partition. *)
Definition Offsets : Set := list (Z * Z).

(** The rows one trigger finds, with the positions they reach. *)
Record MicroBatch : Set := {
  rows : list Source.Row;
  end_offsets : Offsets
}.

Inductive QueryStatus : Set :=
| ACTIVE
| JOB_FAILED (e : SparkError)
| SINK_FAILED (reason : string).

Record Query : Type := {
  batch_id : Z;
  committed : Offsets;
  status : QueryStatus;
  sink : Table
}.

(** Modelled from the spec: the Pipeline Orchestrator's commit discipline
    (Fetching, Decoding, Writing, Committing), which in the program is
    Spark's micro-batch engine behind [writeStream.foreachBatch(...).start()],
    not code of this repository.  An active query runs [process] and
    [transform] on
    the batch and hands the result to the batch function; only when that
    returns are the batch's positions committed; when it raises, the query
    stops with the failure and commits nothing.  A trigger that finds no row
    starts no batch. *)
Definition run_batch (q : Query) (b : MicroBatch) : Query :=
  match status q, rows b with
  | ACTIVE, [] => q
  | ACTIVE, _ :: _ =>
      match transform session_conf (process (rows b)) with
      | Raise e =>
          {| batch_id := batch_id q; committed := committed q;
             status := JOB_FAILED e; sink := sink q |}
      | Ok merged_df =>
          match write_to_postgres merged_df (batch_id q) (sink q) with
          | Saved t =>
              {| batch_id := batch_id q + 1; committed := end_offsets b;
                 status := ACTIVE; sink := t |}
          | SaveFailed t reason =>
              {| batch_id := batch_id q; committed := committed q;
                 status := SINK_FAILED reason; sink := t |}
          end
      end
  | _, _ => q
  end.

(** [start_streaming] over the batches that arrive until the query stops:
    the state [awaitTermination] returns or raises from. *)
Definition start_streaming (batches : list MicroBatch) (q : Query) : Query :=
  fold_left run_batch batches q.

End Streaming.

Arguments Saved {Table} t.
Arguments SaveFailed {Table} t reason.
Arguments Build_Query {Table} batch_id committed status sink.
Arguments batch_id {Table} q.
Arguments committed {Table} q.
Arguments status {Table} q.
Arguments sink {Table} q.
Arguments write_to_postgres {Table} jdbc_save database_info batch_df batch_id t.
Arguments run_batch {T Table} jdbc_save database_info q b.
Arguments start_streaming {T Table} jdbc_save database_info batches q.

End Streaming_ETL.

(* ================================================================== *)
(** * A reference instance of the text routines *)
(* ================================================================== *)

(** Readers and a writer to run the program on concrete payloads: JSON as
    RFC 8259 has it (escapes of the form \uXXXX apart), decimal literals
    rounded to the nearest binary32 number, instants in UTC.  The theorems
    below hold for every instance of [TextRoutines]; this one serves the
    scenarios. *)
Module Reference.
Import Spark.


Local Open Scope string_scope.

Definition code (c : ascii) : Z := Z.of_nat (nat_of_ascii c).

Definition is_ws (c : ascii) : bool :=
  let n := code c in Z.eqb n 32 || Z.eqb n 9 || Z.eqb n 10 || Z.eqb n 13.

Definition is_digit (c : ascii) : bool :=
  let n := code c in Z.leb 48 n && Z.leb n 57.

Definition quote : ascii := Eval cbv in ascii_of_nat 34.
Definition backslash : ascii := Eval cbv in ascii_of_nat 92.

Fixpoint skip_ws (s : string) : string :=
  match s with
  | String c rest => if is_ws c then skip_ws rest else s
  | EmptyString => s
  end.

(** The longest prefix of characters satisfying [p], and what follows. *)
Fixpoint span (p : ascii -> bool) (s : string) : string * string :=
  match s with
  | String c rest =>
      if p c then let '(a, b) := span p rest in (String c a, b) else (EmptyString, s)
  | EmptyString => (EmptyString, EmptyString)
  end.

Definition starts_with (c : ascii) (s : string) : option string :=
  match s with
  | String d rest => if Ascii.eqb c d then Some rest else None
  | EmptyString => None
  end.

(** A token ends at the end of the text, at white space or at a
    structural character. *)
Definition at_separator (s : string) : bool :=
  match s with
  | EmptyString => true
  | String c _ =>
      is_ws c || Ascii.eqb c "," || Ascii.eqb c "]" || Ascii.eqb c "}"
  end.

(** The body of a string, after its opening quote. *)
Fixpoint read_string (s : string) : option (string * string) :=
  match s with
  | EmptyString => None
  | String c rest =>
      if Ascii.eqb c quote then Some (EmptyString, rest)
      else if Ascii.eqb c backslash then
        match rest with
        | String e rest' =>
            let unescaped :=
              if Ascii.eqb e quote then Some quote
              else if Ascii.eqb e backslash then Some backslash
              else if Ascii.eqb e "/" then Some "/"%char
              else if Ascii.eqb e "b" then Some (ascii_of_nat 8)
              else if Ascii.eqb e "f" then Some (ascii_of_nat 12)
              else if Ascii.eqb e "n" then Some (ascii_of_nat 10)
              else if Ascii.eqb e "r" then Some (ascii_of_nat 13)
              else if Ascii.eqb e "t" then Some (ascii_of_nat 9)
              else None in
            match unescaped, read_string rest' with
            | Some ch, Some (body, after) => Some (String ch body, after)
            | _, _ => None
            end
        | EmptyString => None
        end
      else if Z.ltb (code c) 32 then None
      else match read_string rest with
           | Some (body, after) => Some (String c body, after)
           | None => None
           end
  end.

(** A number token: an optional minus, an integer part with no leading
    zero, an optional fraction and an optional exponent, then a separator. *)
Definition read_number (s : string) : option (string * string) :=
  let '(sign, s1) := match starts_with "-" s with
                     | Some r => ("-", r)
                     | None => ("", s)
                     end in
  let '(int, s2) := span is_digit s1 in
  let int_ok := match int with
                | EmptyString => false
                | String "0" (String _ _) => false
                | _ => true
                end in
  let '(frac, s3, frac_ok) :=
    match starts_with "." s2 with
    | Some r => let '(d, r') := span is_digit r in
                ("." ++ d, r', negb (String.eqb d ""))
    | None => ("", s2, true)
    end in
  let '(exp, s4, exp_ok) :=
    match s3 with
    | String c r =>
        if Ascii.eqb c "e" || Ascii.eqb c "E" then
          let '(sg, r1) := match r with
                           | String g r' =>
                               if Ascii.eqb g "+" || Ascii.eqb g "-"
                               then (String g "", r') else ("", r)
                           | EmptyString => ("", r)
                           end in
          let '(d, r2) := span is_digit r1 in
          (String c sg ++ d, r2, negb (String.eqb d ""))
        else ("", s3, true)
    | EmptyString => ("", s3, true)
    end in
  if int_ok && frac_ok && exp_ok && at_separator s4
  then Some (sign ++ int ++ frac ++ exp, s4) else None.

Definition read_literal (word : string) (j : json) (s : string)
  : option (json * string) :=
  if String.prefix word s then
    let rest := substring (String.length word) (String.length s - String.length word) s in
    if at_separator rest then Some (j, rest) else None
  else None.

Fixpoint read_value (fuel : nat) (s : string) {struct fuel}
  : option (json * string) :=
  match fuel with
  | O => None
  | S fuel' =>
      match skip_ws s with
      | EmptyString => None
      | String c rest as s' =>
          if Ascii.eqb c "{" then
            match skip_ws rest with
            | String "}" after => Some (JObject [], after)
            | _ => match read_members fuel' rest with
                   | Some (fs, after) => Some (JObject fs, after)
                   | None => None
                   end
            end
          else if Ascii.eqb c "[" then
            match skip_ws rest with
            | String "]" after => Some (JArray [], after)
            | _ => match read_items fuel' rest with
                   | Some (js, after) => Some (JArray js, after)
                   | None => None
                   end
            end
          else if Ascii.eqb c quote then
            match read_string rest with
            | Some (body, after) => Some (JString body, after)
            | None => None
            end
          else if Ascii.eqb c "t" then read_literal "true" (JBool true) s'
          else if Ascii.eqb c "f" then read_literal "false" (JBool false) s'
          else if Ascii.eqb c "n" then read_literal "null" JNull s'
          else match read_number s' with
               | Some (lexeme, after) => Some (JNumber lexeme, after)
               | None => None
               end
      end
  end

with read_items (fuel : nat) (s : string) {struct fuel}
  : option (list json * string) :=
  match fuel with
  | O => None
  | S fuel' =>
      match read_value fuel' s with
      | None => None
      | Some (j, after) =>
          match skip_ws after with
          | String "]" after' => Some ([j], after')
          | String "," after' =>
              match read_items fuel' after' with
              | Some (js, rest) => Some (j :: js, rest)
              | None => None
              end
          | _ => None
          end
      end
  end

with read_members (fuel : nat) (s : string) {struct fuel}
  : option (list (string * json) * string) :=
  match fuel with
  | O => None
  | S fuel' =>
      match starts_with quote (skip_ws s) with
      | None => None
      | Some body =>
          match read_string body with
          | None => None
          | Some (name, after) =>
              match starts_with ":" (skip_ws after) with
              | None => None
              | Some after' =>
                  match read_value fuel' after' with
                  | None => None
                  | Some (j, after'') =>
                      match skip_ws after'' with
                      | String "}" rest => Some ([(name, j)], rest)
                      | String "," rest =>
                          match read_members fuel' rest with
                          | Some (fs, rest') => Some ((name, j) :: fs, rest')
                          | None => None
                          end
                      | _ => None
                      end
                  end
              end
          end
      end
  end.

Definition parse_json (s : string) : option json :=
  option_map fst (read_value (2 * String.length s + 2) s).

(** Texts below are written with ' where JSON has a double quote. *)
Fixpoint json_text (s : string) : string :=
  match s with
  | String c rest => String (if Ascii.eqb c "'" then quote else c) (json_text rest)
  | EmptyString => EmptyString
  end.


(** *** Writing a tree back as compact JSON text *)

Fixpoint escape (s : string) : string :=
  match s with
  | EmptyString => EmptyString
  | String c rest =>
      if Ascii.eqb c quote || Ascii.eqb c backslash
      then String backslash (String c (escape rest))
      else String c (escape rest)
  end.

Definition quoted (s : string) : string :=
  String quote (escape s) ++ String quote "".

Fixpoint to_text (j : json) : string :=
  match j with
  | JNull => "null"
  | JBool true => "true"
  | JBool false => "false"
  | JNumber lexeme => lexeme
  | JString s => quoted s
  | JArray items =>
      "[" ++ (fix go (js : list json) : string :=
                match js with
                | [] => ""
                | [j'] => to_text j'
                | j' :: js' => to_text j' ++ "," ++ go js'
                end) items ++ "]"
  | JObject fields =>
      "{" ++ (fix go (fs : list (string * json)) : string :=
                match fs with
                | [] => ""
                | [(k, v)] => quoted k ++ ":" ++ to_text v
                | (k, v) :: fs' => quoted k ++ ":" ++ to_text v ++ "," ++ go fs'
                end) fields ++ "}"
  end.

(** *** Decimal literals *)

Definition digit_value (c : ascii) : Z := code c - 48.

Fixpoint digits_value (s : string) (acc : Z) : Z :=
  match s with
  | EmptyString => acc
  | String c rest => digits_value rest (10 * acc + digit_value c)
  end.

(** [a / b] rounded to the nearest integer, ties to even. *)
Definition div_nearest_even (a b : Z) : Z :=
  let d := a / b in
  let r := a mod b in
  if Z.ltb (2 * r) b then d
  else if Z.ltb b (2 * r) then d + 1
  else if Z.even d then d else d + 1.

(** The binary32 number nearest to [m * 10^e10] ([m >= 0]), with the sign
    given: the significand is rounded to 24 bits, fewer below the normal
    range, and a result of 2^128 or more is infinite. *)
Definition round_binary32 (negative : bool) (m e10 : Z) : float :=
  let signed (x : float) := if negative then PrimFloat.opp x else x in
  if Z.eqb m 0 then signed PrimFloat.zero
  else if Z.ltb 60 e10 then signed PrimFloat.infinity
  else
    let p := if Z.leb 0 e10 then m * 10 ^ e10 else m in
    let q := if Z.leb 0 e10 then 1 else 10 ^ (- e10) in
    let e0 := Z.log2 p - Z.log2 q in
    let below := if Z.leb 0 e0 then Z.ltb p (q * 2 ^ e0)
                 else Z.ltb (p * 2 ^ (- e0)) q in
    let e := if below then e0 - 1 else e0 in
    let t := Z.max (e - 23) (-149) in
    let mant := if Z.leb 0 t then div_nearest_even p (q * 2 ^ t)
                else div_nearest_even (p * 2 ^ (- t)) q in
    if Z.leb 0 t && Z.leb (2 ^ 128) (mant * 2 ^ t)
    then signed PrimFloat.infinity
    else signed (PrimFloat.ldshiftexp (PrimFloat.of_uint63 (Uint63.of_Z mant))
                                      (Uint63.of_Z (t + 2101))).

(** A decimal literal, white space around it dropped: an optional sign,
    digits with an optional point among them, an optional exponent. *)
Definition string_to_float (s : string) : option float :=
  let s0 := skip_ws s in
  let '(negative, s1) :=
    match s0 with
    | String c r => if Ascii.eqb c "-" then (true, r)
                    else if Ascii.eqb c "+" then (false, r) else (false, s0)
    | EmptyString => (false, s0)
    end in
  let '(int, s2) := span is_digit s1 in
  let '(frac, s3) := match starts_with "." s2 with
                     | Some r => span is_digit r
                     | None => ("", s2)
                     end in
  let '(e10, s4, exp_ok) :=
    match s3 with
    | String c r =>
        if Ascii.eqb c "e" || Ascii.eqb c "E" then
          let '(neg_exp, r1) :=
            match r with
            | String g r' => if Ascii.eqb g "-" then (true, r')
                             else if Ascii.eqb g "+" then (false, r') else (false, r)
            | EmptyString => (false, r)
            end in
          let '(d, r2) := span is_digit r1 in
          let v := if Z.ltb 6 (Z.of_nat (String.length d)) then 1000000
                   else digits_value d 0 in
          (if neg_exp then - v else v, r2, negb (String.eqb d ""))
        else (0, s3, true)
    | EmptyString => (0, s3, true)
    end in
  let some_digit := negb (String.eqb int "" && String.eqb frac "") in
  if some_digit && exp_ok && String.eqb (skip_ws s4) "" then
    let m := digits_value (int ++ frac) 0 in
    let shift := e10 - Z.of_nat (String.length frac) in
    let digits := Z.of_nat (String.length (int ++ frac)) in
    if Z.ltb (digits + shift) (-60)
    then Some (round_binary32 negative 0 0)
    else Some (round_binary32 negative m shift)
  else None.

(** *** Instants

    [YYYY-MM-DDTHH:MM:SSZ], the UTC designator required, as microseconds
    since 1970-01-01T00:00:00Z. *)
Definition days_from_civil (y m d : Z) : Z :=
  let y' := if Z.leb m 2 then y - 1 else y in
  let era := y' / 400 in
  let yoe := y' - era * 400 in
  let mp := (m + 9) mod 12 in
  let doy := (153 * mp + 2) / 5 + d - 1 in
  let doe := yoe * 365 + yoe / 4 - yoe / 100 + doy in
  era * 146097 + doe - 719468.

Definition days_in_month (y m : Z) : Z :=
  if Z.eqb m 2 then
    if (Z.eqb (y mod 4) 0 && negb (Z.eqb (y mod 100) 0)) || Z.eqb (y mod 400) 0
    then 29 else 28
  else if Z.eqb m 4 || Z.eqb m 6 || Z.eqb m 9 || Z.eqb m 11 then 30 else 31.

(** [n] digits exactly, then the character [sep] when one is given. *)
Definition read_field (n : nat) (sep : option ascii) (s : string)
  : option (Z * string) :=
  let d := substring 0 n s in
  let rest := substring n (String.length s - n) s in
  if Nat.eqb (String.length d) n && String.eqb (fst (span is_digit d)) d then
    match sep with
    | None => Some (digits_value d 0, rest)
    | Some c => match starts_with c rest with
                | Some rest' => Some (digits_value d 0, rest')
                | None => None
                end
    end
  else None.

Definition string_to_timestamp (s : string) : option Z :=
  match read_field 4 (Some "-"%char) s with
  | None => None
  | Some (y, s1) =>
  match read_field 2 (Some "-"%char) s1 with
  | None => None
  | Some (mo, s2) =>
  match read_field 2 (Some "T"%char) s2 with
  | None => None
  | Some (d, s3) =>
  match read_field 2 (Some ":"%char) s3 with
  | None => None
  | Some (h, s4) =>
  match read_field 2 (Some ":"%char) s4 with
  | None => None
  | Some (mi, s5) =>
  match read_field 2 (Some "Z"%char) s5 with
  | None => None
  | Some (sec, s6) =>
      if String.eqb s6 "" && Z.leb 1 mo && Z.leb mo 12 && Z.leb 1 d
         && Z.leb d (days_in_month y mo) && Z.leb h 23 && Z.leb mi 59
         && Z.leb sec 59
      then Some ((((days_from_civil y mo d * 24 + h) * 60 + mi) * 60 + sec)
                 * 1000000)
      else None
  end end end end end end.


(** [JacksonParser]'s float converter: a number token by its lexeme, and
    the strings that name the non-numeric values. *)
Definition json_to_float (j : json) : option float :=
  match j with
  | JNumber lexeme => string_to_float lexeme
  | JString s =>
      if String.eqb s "NaN" then Some PrimFloat.nan
      else if String.eqb s "+INF" || String.eqb s "+Infinity"
              || String.eqb s "Infinity" then Some PrimFloat.infinity
      else if String.eqb s "-INF" || String.eqb s "-Infinity"
      then Some PrimFloat.neg_infinity
      else None
  | _ => None
  end.

Definition routines : TextRoutines := {|
  Spark.parse_json := parse_json;
  Spark.to_text := to_text;
  Spark.string_to_float := string_to_float;
  Spark.string_to_timestamp := string_to_timestamp;
  Spark.json_to_float := json_to_float
|}.

End Reference.

(* ================================================================== *)
(** * Specification-side definitions *)
(* ================================================================== *)

Import Spark Streaming_ETL.

(** The arithmetic mean as the program computes it: the doubles summed from
    the left, starting at 0, and the sum divided by the count. *)
Definition sum_left (xs : list double) : double :=
  fold_left PrimFloat.add xs (int_to_double 0).

Definition mean (xs : list double) : double :=
  PrimFloat.div (sum_left xs) (int_to_double (Z.of_nat (List.length xs))).

(** A decoded row with its [thermal_zones] column set to NULL. *)
Definition without_thermal_zones (r : Intermediate.Row) : Intermediate.Row :=
  {| Intermediate.key := Intermediate.key r;
     Intermediate.device := Intermediate.device r;
     Intermediate.collected_at := Intermediate.collected_at r;
     Intermediate.thermal_zones := None;
     Intermediate.sensors_cpu := Intermediate.sensors_cpu r;
     Intermediate.sensors := Intermediate.sensors r |}.

(** The assembly the Normalizer is specified to do. *)
Definition normalize (r : Intermediate.Row) (t : option double) : Canonical.Row :=
  {| Canonical.key := Intermediate.key r;
     Canonical.device := Intermediate.device r;
     Canonical.collected_at := Intermediate.collected_at r;
     Canonical.cpu_temp := t;
     Canonical.gpu_temp := 0 |}.

(** The plain selection [process] is specified as: both columns cast to
    string, nothing else. *)
Definition select_key_value (input_df : list Source.Row) : list Processed.Row :=
  List.map (fun r => {| Processed.key := option_map binary_to_string (Source.key r);
                        Processed.json_value := option_map binary_to_string (Source.value r) |})
           input_df.

(** The row a record with an unreadable payload comes out as. *)
Definition all_null_row (key : option string) : Canonical.Row :=
  {| Canonical.key := key;
     Canonical.device := None;
     Canonical.collected_at := None;
     Canonical.cpu_temp := None;
     Canonical.gpu_temp := 0 |}.

(** ** Concrete rows *)

Module Scenario.

(** A decoded row with the given temperature columns. *)
Definition decoded (tz : option (array float32)) (cpu : option float32)
  (s : option (map_data string float32)) : Intermediate.Row :=
  {| Intermediate.key := Some "k1"%string;
     Intermediate.device := Some "pi1"%string;
     Intermediate.collected_at := Some 1704067200000000;
     Intermediate.thermal_zones := tz;
     Intermediate.sensors_cpu := cpu;
     Intermediate.sensors := s |}.

(** Scenario A as decoded: two zones, and a CPU sensor below them. *)
Definition two_zones : Intermediate.Row :=
  decoded (Some [Some 40%float; Some 44%float]) (Some 99%float)
          (Some [("CPU"%string, Some 99%float)]).

(** An empty [thermal_zones] array beside a CPU sensor reading. *)
Definition empty_zones : Intermediate.Row :=
  decoded (Some []) (Some 55.5%float) (Some [("CPU"%string, Some 55.5%float)]).

(** A null among the zones. *)
Definition null_zone : Intermediate.Row :=
  decoded (Some [Some 40%float; None]) None None.

(** 2^60, a binary32 number; 2^60 + 1 is not a binary64 number. *)
Definition two60 : float32 := 1152921504606846976%float.

Definition zones_a : list float32 := [two60; 1%float; PrimFloat.opp two60].
Definition zones_b : list float32 := [two60; PrimFloat.opp two60; 1%float].

Definition with_zones (xs : list float32) : Intermediate.Row :=
  decoded (Some (List.map Some xs)) None None.

Definition cpu_only : Intermediate.Row :=
  decoded None (Some 55.5%float) (Some [("GPU"%string, Some 70%float)]).

Definition sensors_only : Intermediate.Row :=
  decoded None None
          (Some [("GPU"%string, Some 70%float); ("SoC"%string, Some 50%float)]).

Definition nothing : Intermediate.Row := decoded None None None.

(** Kafka records, the payload written with ' for the double quote. *)
Definition record (k payload : string) (offset : Z) : Source.Row :=
  {| Source.key := Some (list_byte_of_string k);
     Source.value := Some (list_byte_of_string (Reference.json_text payload));
     Source.topic := "devices"%string;
     Source.partition := 0;
     Source.offset := offset;
     Source.timestamp := 1704067200000;
     Source.timestampType := 0 |}.

Definition payload_a : string :=
  "{'device':'pi1', 'collected_at':'2024-01-01T00:00:00Z', 'cpu':{'thermal_zones':[40.0,44.0], 'sensors':{'CPU':99.0}}}"%string.

Definition payload_c : string :=
  "{'device':'pi3', 'cpu':{'sensors':{'CPU':60.0,'GPU':70.0}}}"%string.

(** The output of [process] for a record with key k1 and the given
    payload. *)
Definition processed (payload : string) : Processed.Row :=
  {| Processed.key := Some "k1"%string;
     Processed.json_value := Some (Reference.json_text payload) |}.

Definition payload_empty_zones : string :=
  "{'device':'pi1', 'collected_at':'2024-01-01T00:00:00Z', 'cpu':{'thermal_zones':[], 'sensors':{'CPU':55.5}}}"%string.

Definition payload_null_zone : string :=
  "{'device':'pi1', 'collected_at':'2024-01-01T00:00:00Z', 'cpu':{'thermal_zones':[40.0, null]}}"%string.

Definition payload_zones_a : string :=
  "{'device':'pi1', 'collected_at':'2024-01-01T00:00:00Z', 'cpu':{'thermal_zones':[1152921504606846976, 1, -1152921504606846976]}}"%string.

Definition payload_zones_b : string :=
  "{'device':'pi1', 'collected_at':'2024-01-01T00:00:00Z', 'cpu':{'thermal_zones':[1152921504606846976, -1152921504606846976, 1]}}"%string.

Definition payload_bad : string := "{'device':'pi9', 'cpu':"%string.

Definition bad_row : Processed.Row :=
  {| Processed.key := Some "k3"%string;
     Processed.json_value := Some (Reference.json_text payload_bad) |}.

(** Five records, the third with a payload that is not JSON. *)
Definition five_records : list Source.Row :=
  [ record "k1" payload_a 100;
    record "k2" payload_c 101;
    record "k3" payload_bad 102;
    record "k4" payload_a 103;
    record "k5" payload_c 104 ].

(** A relation as the list of its rows; a writer that appends or replaces,
    and one whose every write fails. *)
Definition appending_writer (db : DatabaseInfo) (batch : list Canonical.Row)
  (t : list Canonical.Row) : SaveOutcome (list Canonical.Row) :=
  if String.eqb (mode db) "overwrite" then Saved batch else Saved (t ++ batch).

Definition failing_writer (db : DatabaseInfo) (batch : list Canonical.Row)
  (t : list Canonical.Row) : SaveOutcome (list Canonical.Row) :=
  SaveFailed t "connection refused"%string.

Definition postgres : DatabaseInfo :=
  {| db_url := "jdbc:postgresql://db:5432/devices"%string;
     table := "temperatures"%string;
     user := "etl"%string;
     password := "secret"%string;
     driver := "org.postgresql.Driver"%string;
     mode := "append"%string |}.

Definition first_batch : MicroBatch :=
  {| rows := five_records; end_offsets := [(0, 105)] |}.

Definition second_batch : MicroBatch :=
  {| rows := [record "k6" payload_a 105]; end_offsets := [(0, 106)] |}.

Definition fresh_query : Query (list Canonical.Row) :=
  {| batch_id := 0; committed := [(0, 100)]; status := ACTIVE; sink := [] |}.

End Scenario.

(* ================================================================== *)
(** * Properties of the derivation: the [cpu_value] column *)
(* ================================================================== *)

Section Derivation.

Let merge : option double -> option float32 -> option double :=
  fun acc x => add acc (option_map float_to_double x).

Lemma fold_merge_values (xs : list float32) (z : double) :
  fold_left merge (List.map Some xs) (Some z) = Some (fold_left PrimFloat.add xs z).
Proof.
  revert z; induction xs as [|x xs IH]; intro z; simpl; [reflexivity|].
  apply IH.
Qed.

Lemma fold_merge_null (l : array float32) : fold_left merge l None = None.
Proof. induction l as [|x l IH]; simpl; auto. Qed.

Lemma fold_merge_null_element (l : array float32) (z : option double) :
  In None l -> fold_left merge l z = None.
Proof.
  revert z; induction l as [|x l IH]; intros z Hin; simpl in *; [tauto|].
  destruct Hin as [-> | Hin].
  - destruct z; simpl; apply fold_merge_null.
  - now apply IH.
Qed.

Lemma length_pos_neqb {A : Type} (xs : list A) :
  xs <> [] -> (Z.of_nat (List.length xs) =? 0) = false.
Proof.
  intro Hne; destruct xs as [|x xs]; [congruence|].
  apply Z.eqb_neq; simpl List.length; lia.
Qed.

(** On an array of non-null elements that is not empty, the first branch
    evaluates to the mean, whatever the configuration. *)
Lemma thermal_zones_mean_values (conf : SQLConf) (r : Intermediate.Row)
  (xs : list float32) :
  Intermediate.thermal_zones r = Some (List.map Some xs) ->
  xs <> [] ->
  thermal_zones_mean conf r = Ok (Some (mean xs)).
Proof.
  intros Htz Hne. unfold thermal_zones_mean, aggregate, size, divide.
  rewrite Htz, length_map, (length_pos_neqb xs Hne). simpl andb. cbv iota.
  fold merge. rewrite fold_merge_values. reflexivity.
Qed.

(** ... and it evaluates to NULL, without ANSI, on an empty array and on
    one that holds a null element. *)
Lemma thermal_zones_mean_null (r : Intermediate.Row) (l : array float32) :
  Intermediate.thermal_zones r = Some l ->
  l = [] \/ In None l ->
  thermal_zones_mean session_conf r = Ok None.
Proof.
  intros Htz Hl. unfold thermal_zones_mean, aggregate, size, divide.
  rewrite Htz. destruct Hl as [-> | Hin]; [reflexivity|].
  fold merge. rewrite (fold_merge_null_element l _ Hin).
  simpl. now destruct (_ =? 0).
Qed.

Lemma cpu_value_mean (conf : SQLConf) (r : Intermediate.Row) (xs : list float32) :
  Intermediate.thermal_zones r = Some (List.map Some xs) ->
  xs <> [] ->
  cpu_value conf r = Ok (Some (mean xs)).
Proof.
  intros Htz Hne. unfold cpu_value. simpl coalesce.
  unfold when at 1, isNotNull at 1, col at 1. rewrite Htz. simpl bind.
  rewrite (thermal_zones_mean_values conf r xs Htz Hne). reflexivity.
Qed.

Lemma cpu_value_falls_through (r : Intermediate.Row) (l : array float32) :
  Intermediate.thermal_zones r = Some l ->
  l = [] \/ In None l ->
  cpu_value session_conf r = cpu_value session_conf (without_thermal_zones r).
Proof.
  intros Htz Hl. unfold cpu_value. simpl coalesce.
  unfold when at 1, isNotNull at 1, col at 1. rewrite Htz. simpl bind.
  rewrite (thermal_zones_mean_null r l Htz Hl). reflexivity.
Qed.

End Derivation.

Section Totality.

Lemma thermal_zones_mean_total (conf : SQLConf) (r : Intermediate.Row) :
  ansi_enabled conf = false ->
  exists v, thermal_zones_mean conf r = Ok v.
Proof.
  intro Hansi. unfold thermal_zones_mean, divide, size. rewrite Hansi.
  destruct (Intermediate.thermal_zones r) as [l|]; simpl.
  - destruct (Z.of_nat (List.length l) =? 0); simpl; [eauto|].
    destruct (fold_left _ l _); eauto.
  - eauto.
Qed.

Lemma first_sensor_total (conf : SQLConf) (r : Intermediate.Row) :
  ansi_enabled conf = false ->
  exists v, first_sensor conf r = Ok v.
Proof.
  intro Hansi. unfold first_sensor, element_at. rewrite Hansi.
  destruct (map_values (Intermediate.sensors r)) as [l|]; simpl; [|eauto].
  destruct (Z.of_nat (List.length l) <? 1); eauto.
Qed.

Lemma cpu_value_total (conf : SQLConf) (r : Intermediate.Row) :
  ansi_enabled conf = false ->
  exists v, cpu_value conf r = Ok v.
Proof.
  intro Hansi.
  unfold cpu_value. simpl coalesce. unfold when, isNotNull, col, cast_double.
  simpl bind.
  destruct (thermal_zones_mean_total conf r Hansi) as [m Hm].
  destruct (first_sensor_total conf r Hansi) as [f Hf].
  destruct (Intermediate.thermal_zones r) as [l|] eqn:Htz.
  - rewrite Hm. simpl. destruct m; [eauto|].
    destruct (Intermediate.sensors_cpu r); simpl; [eauto|].
    destruct (Intermediate.sensors r); simpl; [|eauto].
    rewrite Hf; simpl. destruct f; simpl; eauto.
  - simpl. destruct (Intermediate.sensors_cpu r); simpl; [eauto|].
    destruct (Intermediate.sensors r); simpl; [|eauto].
    rewrite Hf; simpl. destruct f; simpl; eauto.
Qed.

Lemma element_at_first {A : Type} (conf : SQLConf) (v : option A) (l : array A) :
  element_at conf (Some (v :: l)) (Some 1) = Ok v.
Proof.
  unfold element_at. change (1 =? 0) with false. cbv iota.
  destruct (Z.of_nat (List.length (v :: l)) <? Z.abs 1) eqn:Hlt.
  - apply Z.ltb_lt in Hlt. simpl List.length in Hlt. simpl Z.abs in Hlt. lia.
  - reflexivity.
Qed.

Lemma first_sensor_first (conf : SQLConf) (r : Intermediate.Row)
  (name : string) (v : option float32) (others : map_data string float32) :
  Intermediate.sensors r = Some ((name, v) :: others) ->
  first_sensor conf r = Ok v.
Proof.
  intro Hs. unfold first_sensor, map_values. rewrite Hs.
  cbn [List.map snd]. apply element_at_first.
Qed.

Lemma cpu_value_all_null (conf : SQLConf) (r : Intermediate.Row) :
  Intermediate.thermal_zones r = None ->
  Intermediate.sensors_cpu r = None ->
  Intermediate.sensors r = None ->
  cpu_value conf r = Ok None.
Proof.
  intros H1 H2 H3. unfold cpu_value. simpl coalesce.
  unfold when, isNotNull, col. rewrite H1, H2, H3. reflexivity.
Qed.

End Totality.

(** C1, as amended.  Strict priority of the first branch holds where that
    branch has a value: for [thermal_zones] non-null, non-empty and free of
    null elements, [cpu_value] is the mean of the zones (their left-to-right
    double sum over their count) whatever [sensors_cpu] and [sensors] hold,
    under every configuration.  On an empty array, or one holding a null,
    the first branch is NULL and [coalesce] hands over to the [sensors_cpu]
    branch and then the [sensors] branch: the result is the one of the same
    row with [thermal_zones] NULL. *)
Theorem C1_thermal_zones_branch :
  (forall (conf : SQLConf) (r : Intermediate.Row) (xs : list float32),
      Intermediate.thermal_zones r = Some (List.map Some xs) ->
      xs <> [] ->
      cpu_value conf r = Ok (Some (mean xs)))
  /\
  (forall (r : Intermediate.Row) (l : array float32),
      Intermediate.thermal_zones r = Some l ->
      l = [] \/ In None l ->
      cpu_value session_conf r
      = cpu_value session_conf (without_thermal_zones r)).
Proof.
  split.
  - exact cpu_value_mean.
  - exact cpu_value_falls_through.
Qed.

Lemma C1_thermal_zones_branch_witness :
  cpu_value session_conf Scenario.two_zones = Ok (Some 42%float)
  /\ cpu_value session_conf Scenario.empty_zones
     = cpu_value session_conf (without_thermal_zones Scenario.empty_zones).
Proof.
  split.
  - apply (proj1 C1_thermal_zones_branch session_conf Scenario.two_zones
                 [40%float; 44%float]); [reflexivity | discriminate].
  - apply (proj2 C1_thermal_zones_branch Scenario.empty_zones []);
      [reflexivity | left; reflexivity].
Defined.

(** C1 as stated fails on an empty [thermal_zones]: the column is non-null,
    yet the result is the value of [sensors_cpu], a lower-priority branch
    (and with ANSI on the division raises instead).  The row is the one
    decoded from a payload with ["thermal_zones": []]. *)
Lemma C1_empty_zones_use_sensors_cpu :
  select_fields (T := Reference.routines) session_conf
                (Scenario.processed Scenario.payload_empty_zones)
  = Ok Scenario.empty_zones
  /\ Intermediate.thermal_zones Scenario.empty_zones = Some []
  /\ Intermediate.sensors_cpu Scenario.empty_zones = Some 55.5%float
  /\ cpu_value session_conf Scenario.empty_zones = Ok (Some 55.5%float)
  /\ cpu_value {| ansi_enabled := true |} Scenario.empty_zones
     = Raise DIVIDE_BY_ZERO.
Proof. repeat split; vm_compute; reflexivity. Qed.

(** Double addition is commutative, and a sum that starts from 0 does not
    depend on which of its first two terms comes first. *)
Lemma SFadd_comm (prec emax : Z) (x y : spec_float) :
  SFadd prec emax x y = SFadd prec emax y x.
Proof.
  destruct x as [sx|sx| |sx mx ex], y as [sy|sy| |sy my ey]; simpl;
    try reflexivity; try (destruct sx, sy; reflexivity).
  now rewrite Z.min_comm, Z.add_comm.
Qed.

Lemma zero_add_swap (a b : double) :
  PrimFloat.add (PrimFloat.add 0%float a) b
  = PrimFloat.add (PrimFloat.add 0%float b) a.
Proof.
  apply Prim2SF_inj. rewrite !add_spec.
  change (Prim2SF 0%float) with (S754_zero false).
  unfold SF64add.
  destruct (Prim2SF a) as [sa|sa| |sa ma ea], (Prim2SF b) as [sb|sb| |sb mb eb];
    try (destruct sa); try (destruct sb); try reflexivity.
  all: cbn [SFadd]; now rewrite Z.min_comm, Z.add_comm.
Qed.

Lemma sum_left_swap (a b : float32) (rest : list float32) :
  sum_left (a :: b :: rest) = sum_left (b :: a :: rest).
Proof.
  unfold sum_left. change (int_to_double 0) with 0%float. simpl fold_left.
  now rewrite (zero_add_swap a b).
Qed.

(** C3, as amended.  For [thermal_zones] non-null, non-empty and free of
    null elements, [cpu_value] is the mean as the program computes it: the
    zones as doubles, summed from the left, divided by their count.  It does
    not depend on the order of the first two zones: an array of two zones
    gives the same result in both orders, and so does any longer array with
    its first two zones exchanged. *)
Theorem C3_mean_of_thermal_zones
  (conf : SQLConf) (r : Intermediate.Row) (xs : list float32) :
  Intermediate.thermal_zones r = Some (List.map Some xs) ->
  xs <> [] ->
  cpu_value conf r = Ok (Some (mean xs))
  /\ forall (r' : Intermediate.Row) (a b : float32) (rest : list float32),
       xs = a :: b :: rest ->
       Intermediate.thermal_zones r' = Some (List.map Some (b :: a :: rest)) ->
       cpu_value conf r' = cpu_value conf r.
Proof.
  intros Htz Hne. split; [now apply cpu_value_mean|].
  intros r' a b rest -> Htz'.
  rewrite (cpu_value_mean conf r (a :: b :: rest) Htz Hne).
  rewrite (cpu_value_mean conf r' (b :: a :: rest) Htz') by discriminate.
  unfold mean. now rewrite (sum_left_swap a b rest).
Qed.

Lemma C3_mean_of_thermal_zones_witness :
  cpu_value session_conf Scenario.two_zones = Ok (Some 42%float)
  /\ forall (r' : Intermediate.Row) (a b : float32) (rest : list float32),
       [40%float; 44%float] = a :: b :: rest ->
       Intermediate.thermal_zones r' = Some (List.map Some (b :: a :: rest)) ->
       cpu_value session_conf r' = cpu_value session_conf Scenario.two_zones.
Proof.
  apply (C3_mean_of_thermal_zones session_conf Scenario.two_zones
           [40%float; 44%float]); [reflexivity | discriminate].
Defined.

(** C3 as stated fails.  The sum is a double sum taken in array order, and
    double addition rounds: the three zones 2^60, 1, -2^60 average to 0 in
    that order and to 1/3 with the last two exchanged.  And an array element may
    be null, in which case the sum, and with it the branch, is NULL.  The
    rows are those decoded from payloads with these arrays. *)
Lemma C3_order_changes_the_mean :
  Permutation Scenario.zones_a Scenario.zones_b
  /\ select_fields (T := Reference.routines) session_conf
                   (Scenario.processed Scenario.payload_zones_a)
     = Ok (Scenario.with_zones Scenario.zones_a)
  /\ select_fields (T := Reference.routines) session_conf
                   (Scenario.processed Scenario.payload_zones_b)
     = Ok (Scenario.with_zones Scenario.zones_b)
  /\ cpu_value session_conf (Scenario.with_zones Scenario.zones_a)
     = Ok (Some 0%float)
  /\ cpu_value session_conf (Scenario.with_zones Scenario.zones_b)
     = Ok (Some (1 / 3)%float)
  /\ PrimFloat.eqb 0%float (1 / 3)%float = false
  /\ select_fields (T := Reference.routines) session_conf
                   (Scenario.processed Scenario.payload_null_zone)
     = Ok Scenario.null_zone
  /\ Intermediate.thermal_zones Scenario.null_zone = Some [Some 40%float; None]
  /\ cpu_value session_conf Scenario.null_zone = Ok None.
Proof.
  split; [apply perm_skip, perm_swap|].
  repeat split; vm_compute; reflexivity.
Qed.

(** C4.  With [thermal_zones] NULL and [sensors_cpu] a value, [cpu_value] is
    that value, under every configuration. *)
Theorem C4_sensors_cpu_returned
  (conf : SQLConf) (r : Intermediate.Row) (x : float32) :
  Intermediate.thermal_zones r = None ->
  Intermediate.sensors_cpu r = Some x ->
  cpu_value conf r = Ok (Some x).
Proof.
  intros Htz Hcpu. unfold cpu_value. simpl coalesce.
  unfold when, isNotNull, col, cast_double. rewrite Htz, Hcpu. reflexivity.
Qed.

Lemma C4_sensors_cpu_returned_witness :
  cpu_value session_conf Scenario.cpu_only = Ok (Some 55.5%float).
Proof.
  apply (C4_sensors_cpu_returned session_conf Scenario.cpu_only 55.5%float);
    reflexivity.
Defined.

(** C5.  With [thermal_zones] and [sensors_cpu] NULL and [sensors] a map
    with at least one entry, [cpu_value] is the value of the map's first
    entry, in the order the entries have in the payload (a null value
    included), under every configuration. *)
Theorem C5_first_sensor_returned
  (conf : SQLConf) (r : Intermediate.Row)
  (name : string) (v : option float32) (others : map_data string float32) :
  Intermediate.thermal_zones r = None ->
  Intermediate.sensors_cpu r = None ->
  Intermediate.sensors r = Some ((name, v) :: others) ->
  cpu_value conf r = Ok v.
Proof.
  intros Htz Hcpu Hs. unfold cpu_value. simpl coalesce.
  unfold when, isNotNull, col, cast_double.
  rewrite Htz, Hcpu, Hs, (first_sensor_first conf r name v others Hs).
  destruct v; reflexivity.
Qed.

Lemma C5_first_sensor_returned_witness :
  cpu_value session_conf Scenario.sensors_only = Ok (Some 70%float).
Proof.
  apply (C5_first_sensor_returned session_conf Scenario.sensors_only
           "GPU"%string (Some 70%float) [("SoC"%string, Some 50%float)]);
    reflexivity.
Defined.

(** C6, as amended.  In every session with ANSI off, the one the program
    builds among them, [cpu_value] evaluates to a (possibly NULL) value on
    every decoded row and never raises.  When the three temperature columns
    are NULL the value is NULL, under every configuration, and the output
    row has [cpu_temp] NULL. *)
Theorem C6_cpu_value_total :
  (forall (conf : SQLConf) (r : Intermediate.Row),
      ansi_enabled conf = false -> exists v, cpu_value conf r = Ok v)
  /\
  (forall (conf : SQLConf) (r : Intermediate.Row),
      Intermediate.thermal_zones r = None ->
      Intermediate.sensors_cpu r = None ->
      Intermediate.sensors r = None ->
      cpu_value conf r = Ok None
      /\ exists c, derive_row conf r = Ok c /\ Canonical.cpu_temp c = None).
Proof.
  split; [exact cpu_value_total|].
  intros conf r H1 H2 H3.
  pose proof (cpu_value_all_null conf r H1 H2 H3) as Hv.
  split; [exact Hv|].
  unfold derive_row. rewrite Hv. simpl. eauto.
Qed.

Lemma C6_cpu_value_total_witness :
  (exists v, cpu_value session_conf Scenario.empty_zones = Ok v)
  /\ cpu_value session_conf Scenario.nothing = Ok None
  /\ exists c, derive_row session_conf Scenario.nothing = Ok c
               /\ Canonical.cpu_temp c = None.
Proof.
  split.
  - apply (proj1 C6_cpu_value_total session_conf Scenario.empty_zones).
    reflexivity.
  - apply (proj2 C6_cpu_value_total session_conf Scenario.nothing); reflexivity.
Defined.

(** C6 as stated fails in a session with ANSI on, a setting the program
    does not fix: the row decoded from a payload with an empty
    [thermal_zones] array raises DIVIDE_BY_ZERO, and a row with nothing but
    an empty [sensors] map raises INVALID_ARRAY_INDEX_IN_ELEMENT_AT. *)
Lemma C6_ansi_session_raises :
  select_fields (T := Reference.routines) {| ansi_enabled := true |}
                (Scenario.processed Scenario.payload_empty_zones)
  = Ok Scenario.empty_zones
  /\ cpu_value {| ansi_enabled := true |} Scenario.empty_zones
     = Raise DIVIDE_BY_ZERO
  /\ cpu_value {| ansi_enabled := true |} (Scenario.decoded None None (Some []))
     = Raise INVALID_ARRAY_INDEX_IN_ELEMENT_AT.
Proof. repeat split; vm_compute; reflexivity. Qed.

(** C7.  The last [select] with [gpu_temp] added is the Normalizer's
    assembly: key, device and collected_at are those of the decoded row,
    cpu_temp is the derived value, gpu_temp is 0; and [derive_row] is that
    assembly applied to the value of [cpu_value]. *)
Theorem C7_output_row_is_normalize :
  (forall (r : Intermediate.Row) (t : option double),
      select_output (with_cpu_value r t) = normalize r t
      /\ Canonical.key (normalize r t) = Intermediate.key r
      /\ Canonical.device (normalize r t) = Intermediate.device r
      /\ Canonical.collected_at (normalize r t) = Intermediate.collected_at r
      /\ Canonical.cpu_temp (normalize r t) = t
      /\ Canonical.gpu_temp (normalize r t) = 0)
  /\
  (forall (conf : SQLConf) (r : Intermediate.Row),
      derive_row conf r = t <- cpu_value conf r ;; Ok (normalize r t)).
Proof.
  split.
  - intros r t. repeat split.
  - intros conf r. reflexivity.
Qed.

(* ================================================================== *)
(** * Properties of the frames: [process] and [transform] *)
(* ================================================================== *)

Section Frames.
Context {T : TextRoutines}.

Lemma mapM_length {A B : Type} (f : A -> result B) (l : list A) (out : list B) :
  mapM f l = Ok out -> List.length out = List.length l.
Proof.
  revert out; induction l as [|a l IH]; intros out H; simpl in H.
  - now inversion H.
  - destruct (f a) as [b|e]; simpl in H; [|discriminate].
    destruct (mapM f l) as [bs|e]; simpl in H; [|discriminate].
    inversion H; subst. simpl. f_equal. now apply IH.
Qed.

Lemma mapM_total {A B : Type} (f : A -> result B) (l : list A) :
  (forall a, exists b, f a = Ok b) -> exists out, mapM f l = Ok out.
Proof.
  intro Hf. induction l as [|a l [bs IH]]; simpl; [eauto|].
  destruct (Hf a) as [b ->]. rewrite IH. simpl. eauto.
Qed.


Lemma get_json_object_unparseable (s : string) (path : list string) :
  parse_json s = None -> get_json_object (Some s) path = None.
Proof. intro H. unfold get_json_object. now rewrite H. Qed.

(** Without a readable payload every decoded field is NULL. *)
Lemma select_fields_unreadable (conf : SQLConf) (r : Processed.Row) :
  (forall path, get_json_object (Processed.json_value r) path = None) ->
  select_fields conf r
  = Ok {| Intermediate.key := Processed.key r;
          Intermediate.device := None;
          Intermediate.collected_at := None;
          Intermediate.thermal_zones := None;
          Intermediate.sensors_cpu := None;
          Intermediate.sensors := None |}.
Proof.
  intro Hnull. unfold select_fields, cast_string, cast_timestamp, cast_float,
    cast_from_string, from_json_array_float, from_json_map_string_float,
    json_field.
  rewrite !Hnull. reflexivity.
Qed.

Lemma transform_row_unreadable (conf : SQLConf) (r : Processed.Row) :
  (forall path, get_json_object (Processed.json_value r) path = None) ->
  transform_row conf r = Ok (all_null_row (Processed.key r)).
Proof.
  intro Hnull. unfold transform_row.
  rewrite (select_fields_unreadable conf r Hnull). reflexivity.
Qed.

Lemma fill_string_column (v : double) (c : option string) :
  fill_column v c = c.
Proof. reflexivity. Qed.

Lemma fillna_identity (v : double) (df : list Processed.Row) : fillna v df = df.
Proof.
  unfold fillna. rewrite <- (map_id df) at 2. apply map_ext.
  intros [k j]. reflexivity.
Qed.

End Frames.

(** The fill is not idle on a numeric column: there a NULL and a NaN are
    replaced. *)
Example fill_double_column :
  fill_column (int_to_double 0) (None : option double) = Some 0%float
  /\ fill_column (int_to_double 0) (Some PrimFloat.nan) = Some 0%float
  /\ fill_column (int_to_double 0) (Some 1.5%float) = Some 1.5%float.
Proof. repeat split. Qed.

(** The spec's scenarios A and C, from the payload text to the output row:
    the two zones 40.0 and 44.0 win over the CPU sensor at 99.0; without
    zones the reading at [$.cpu.sensors.CPU] is the result. *)
Example scenario_A_end_to_end :
  transform_row (T := Reference.routines) session_conf
                (Scenario.processed Scenario.payload_a)
  = Ok (normalize Scenario.two_zones (Some 42%float)).
Proof. vm_compute. reflexivity. Qed.

Example scenario_C_end_to_end :
  option_map Canonical.cpu_temp
    (match transform_row (T := Reference.routines) session_conf
             (Scenario.processed Scenario.payload_c) with
     | Ok c => Some c
     | Raise _ => None
     end)
  = Some (Some 60%float).
Proof. vm_compute. reflexivity. Qed.

(** C2, as amended.  [transform] has no decode failure: a record whose
    payload is NULL or is not parseable as JSON comes out as a row of its
    own, with its key, with device, collected_at and cpu_temp NULL and
    gpu_temp 0, under every configuration; and a frame that [transform]
    evaluates has as many rows as its input, so no record is dropped and
    none is counted aside. *)
Theorem C2_unreadable_payload_kept :
  (forall (T : TextRoutines) (conf : SQLConf) (r : Processed.Row),
      (Processed.json_value r = None
       \/ exists s, Processed.json_value r = Some s /\ parse_json s = None) ->
      transform_row conf r = Ok (all_null_row (Processed.key r)))
  /\
  (forall (T : TextRoutines) (conf : SQLConf) (df : list Processed.Row)
          (out : list Canonical.Row),
      transform conf df = Ok out -> List.length out = List.length df).
Proof.
  split.
  - intros T conf r H. apply transform_row_unreadable. intro path.
    destruct H as [-> | [s [-> Hs]]]; [reflexivity|].
    now apply get_json_object_unparseable.
  - intros T conf df out H. exact (mapM_length _ _ _ H).
Qed.

Lemma C2_unreadable_payload_kept_witness :
  transform_row (T := Reference.routines) session_conf Scenario.bad_row
  = Ok (all_null_row (Some "k3"%string))
  /\ List.length [all_null_row (Some "k3"%string)]
     = List.length [Scenario.bad_row].
Proof.
  split.
  - apply (proj1 C2_unreadable_payload_kept Reference.routines session_conf
             Scenario.bad_row).
    right. exists (Reference.json_text Scenario.payload_bad).
    split; reflexivity.
  - apply (proj2 C2_unreadable_payload_kept Reference.routines session_conf
             [Scenario.bad_row]).
    reflexivity.
Defined.

(** C2 as stated fails: of five records, the third with a payload that is
    not JSON, all five come out of [transform], the third with its key and
    nothing else; and the query writes the five rows and commits the
    batch. *)
Lemma C2_malformed_record_is_written :
  Reference.parse_json (Reference.json_text Scenario.payload_bad) = None
  /\ exists out,
       transform (T := Reference.routines) session_conf
                 (process Scenario.five_records) = Ok out
       /\ List.length out = 5%nat
       /\ nth_error out 2 = Some (all_null_row (Some "k3"%string))
       /\ sink (run_batch (T := Reference.routines) Scenario.appending_writer
                          Scenario.postgres Scenario.fresh_query
                          Scenario.first_batch) = out
       /\ committed (run_batch (T := Reference.routines)
                               Scenario.appending_writer Scenario.postgres
                               Scenario.fresh_query Scenario.first_batch)
          = [(0, 105)].
Proof.
  split; [reflexivity|].
  eexists. split; [vm_compute; reflexivity|].
  repeat split.
Qed.



(** C10.  [process] is the selection of the two columns cast to string:
    the fill that follows changes no frame of that schema, and the bytes of
    each key are those of the source row. *)
Theorem C10_process_is_selection :
  (forall input_df : list Source.Row,
      process input_df = select_key_value input_df)
  /\ (forall (v : double) (df : list Processed.Row), fillna v df = df)
  /\ (forall input_df : list Source.Row,
         List.map (fun p => option_map list_byte_of_string (Processed.key p))
                  (process input_df)
         = List.map Source.key input_df).
Proof.
  split; [|split].
  - intro input_df. unfold process. apply fillna_identity.
  - exact fillna_identity.
  - intro input_df. unfold process. rewrite fillna_identity, map_map.
    apply map_ext. intro r. simpl. destruct (Source.key r) as [b|]; simpl.
    + unfold binary_to_string. now rewrite list_byte_of_string_of_list_byte.
    + reflexivity.
Qed.

(* ================================================================== *)
(** * Properties of the streaming query *)
(* ================================================================== *)

Section Query.
Context {T : TextRoutines} {Table : Type}.
Variable jdbc_save : DatabaseInfo -> list Canonical.Row -> Table -> SaveOutcome Table.
Variable database_info : DatabaseInfo.

(** A query that has stopped stays as it is. *)
Lemma run_batch_stopped (q : Query Table) (b : MicroBatch) :
  status q <> ACTIVE -> run_batch jdbc_save database_info q b = q.
Proof.
  intro H. unfold run_batch. destruct (status q); [congruence| |];
    destruct (rows b); reflexivity.
Qed.

Lemma start_streaming_stopped (q : Query Table) (batches : list MicroBatch) :
  status q <> ACTIVE -> start_streaming jdbc_save database_info batches q = q.
Proof.
  intro H. unfold start_streaming. induction batches as [|b bs IH]; simpl.
  - reflexivity.
  - now rewrite (run_batch_stopped q b H).
Qed.

(** A write that succeeds commits the batch. *)
Lemma run_batch_saved (q : Query Table) (b : MicroBatch)
  (merged_df : list Canonical.Row) (t : Table) :
  status q = ACTIVE ->
  rows b <> [] ->
  transform session_conf (process (rows b)) = Ok merged_df ->
  write_to_postgres jdbc_save database_info merged_df (batch_id q) (sink q)
  = Saved t ->
  run_batch jdbc_save database_info q b
  = {| batch_id := batch_id q + 1; committed := end_offsets b;
       status := ACTIVE; sink := t |}.
Proof.
  intros Hs Hr Ht Hw. unfold run_batch. rewrite Hs.
  destruct (rows b) as [|r rs] eqn:E; [congruence|].
  rewrite Ht, Hw. reflexivity.
Qed.

Lemma run_batch_failed (q : Query Table) (b : MicroBatch)
  (merged_df : list Canonical.Row) (t : Table) (reason : string) :
  status q = ACTIVE ->
  rows b <> [] ->
  transform session_conf (process (rows b)) = Ok merged_df ->
  write_to_postgres jdbc_save database_info merged_df (batch_id q) (sink q)
  = SaveFailed t reason ->
  run_batch jdbc_save database_info q b
  = {| batch_id := batch_id q; committed := committed q;
       status := SINK_FAILED reason; sink := t |}.
Proof.
  intros Hs Hr Ht Hw. unfold run_batch. rewrite Hs.
  destruct (rows b) as [|r rs] eqn:E; [congruence|].
  rewrite Ht, Hw. reflexivity.
Qed.

End Query.

(** C9.  When the writer fails on a batch, the query stops with the failure
    and the committed positions are those from before the batch: they are
    not advanced by the failed attempt, nor by any batch that would
    follow. *)
Theorem C9_failed_write_commits_nothing
  (T : TextRoutines) (Table : Type)
  (jdbc_save : DatabaseInfo -> list Canonical.Row -> Table -> SaveOutcome Table)
  (database_info : DatabaseInfo)
  (q : Query Table) (b : MicroBatch) (later : list MicroBatch)
  (merged_df : list Canonical.Row) (t : Table) (reason : string) :
  status q = ACTIVE ->
  rows b <> [] ->
  transform session_conf (process (rows b)) = Ok merged_df ->
  write_to_postgres jdbc_save database_info merged_df (batch_id q) (sink q)
  = SaveFailed t reason ->
  committed (run_batch jdbc_save database_info q b) = committed q
  /\ status (run_batch jdbc_save database_info q b) = SINK_FAILED reason
  /\ committed (start_streaming jdbc_save database_info (b :: later) q)
     = committed q.
Proof.
  intros Hs Hr Ht Hw.
  pose proof (run_batch_failed jdbc_save database_info q b merged_df t reason
                Hs Hr Ht Hw) as Hq.
  repeat split.
  - now rewrite Hq.
  - now rewrite Hq.
  - unfold start_streaming. simpl fold_left.
    fold (start_streaming jdbc_save database_info later
            (run_batch jdbc_save database_info q b)).
    rewrite start_streaming_stopped; rewrite Hq; simpl; congruence.
Qed.

Lemma C9_failed_write_commits_nothing_witness :
  committed (run_batch (T := Reference.routines) Scenario.failing_writer
               Scenario.postgres Scenario.fresh_query Scenario.first_batch)
  = [(0, 100)]
  /\ status (run_batch (T := Reference.routines) Scenario.failing_writer
               Scenario.postgres Scenario.fresh_query Scenario.first_batch)
     = SINK_FAILED "connection refused"%string
  /\ committed (start_streaming (T := Reference.routines)
                  Scenario.failing_writer Scenario.postgres
                  [Scenario.first_batch; Scenario.second_batch]
                  Scenario.fresh_query)
     = [(0, 100)].
Proof.
  eapply (C9_failed_write_commits_nothing Reference.routines
            (list Canonical.Row) Scenario.failing_writer Scenario.postgres
            Scenario.fresh_query Scenario.first_batch [Scenario.second_batch]).
  - reflexivity.
  - discriminate.
  - vm_compute. reflexivity.
  - reflexivity.
Defined.

(* ================================================================== *)
(** * Further properties of [process] and [transform] *)
(* ================================================================== *)

Section Rows.
Context {T : TextRoutines}.

Lemma mapM_Forall2 {A B : Type} (f : A -> result B) (l : list A) (out : list B) :
  mapM f l = Ok out -> Forall2 (fun a b => f a = Ok b) l out.
Proof.
  revert out; induction l as [|a l IH]; intros out H; simpl in H.
  - inversion H. constructor.
  - destruct (f a) as [b|e] eqn:Ha; simpl in H; [|discriminate].
    destruct (mapM f l) as [bs|e]; simpl in H; [|discriminate].
    inversion H; subst. constructor; [assumption | now apply IH].
Qed.


(** What a decoded row is made of. *)
Lemma select_fields_ok (conf : SQLConf) (r : Processed.Row) (i : Intermediate.Row) :
  select_fields conf r = Ok i ->
  exists c z x,
    cast_timestamp conf (json_field ["collected_at"%string]) r = Ok c
    /\ read_array_float
         (get_json_object (Processed.json_value r) ["cpu"; "thermal_zones"]%string)
       = Ok z
    /\ cast_float conf (json_field ["cpu"; "sensors"; "CPU"]%string) r = Ok x
    /\ i = {| Intermediate.key := Processed.key r;
              Intermediate.device :=
                get_json_object (Processed.json_value r) ["device"%string];
              Intermediate.collected_at := c;
              Intermediate.thermal_zones := z;
              Intermediate.sensors_cpu := x;
              Intermediate.sensors :=
                read_map_string_float
                  (get_json_object (Processed.json_value r)
                                   ["cpu"; "sensors"]%string) |}.
Proof.
  unfold select_fields, cast_string, from_json_array_float,
    from_json_map_string_float.
  unfold json_field at 1 3 5. cbn [bind].
  destruct (cast_timestamp conf _ r) as [c|e]; cbn [bind]; [|discriminate].
  destruct (read_array_float _) as [z|e]; cbn [bind]; [|discriminate].
  destruct (cast_float conf _ r) as [x|e]; cbn [bind]; [|discriminate].
  intro H; inversion H. exists c, z, x. repeat split.
Qed.

Lemma select_fields_key (conf : SQLConf) (r : Processed.Row) (i : Intermediate.Row) :
  select_fields conf r = Ok i -> Intermediate.key i = Processed.key r.
Proof.
  intro H. destruct (select_fields_ok conf r i H) as [c [z [x [_ [_ [_ ->]]]]]].
  reflexivity.
Qed.

Lemma transform_row_key (conf : SQLConf) (r : Processed.Row) (c : Canonical.Row) :
  transform_row conf r = Ok c ->
  Canonical.key c = Processed.key r /\ Canonical.gpu_temp c = 0.
Proof.
  unfold transform_row, derive_row.
  destruct (select_fields conf r) as [i|e] eqn:Hi; simpl; [|discriminate].
  destruct (cpu_value conf i) as [v|e]; simpl; [|discriminate].
  intro H; inversion H; subst; simpl.
  split; [now apply select_fields_key with conf | reflexivity].
Qed.

(** In an object with no field of a name, no path through that name
    matches. *)
Lemma evaluate_path_no_field (name : string) (path : list string)
  (fields : list (string * json)) :
  (forall k v, In (k, v) fields -> k <> name) ->
  evaluate_path (name :: path) (JObject fields) = None.
Proof.
  intro Habsent. simpl.
  induction fields as [|[k v] fs IH]; [reflexivity|].
  destruct (String.eqb k name) eqn:E.
  - apply String.eqb_eq in E. exfalso. apply (Habsent k v); [now left | exact E].
  - apply IH. intros k' v' Hin. apply (Habsent k' v'). now right.
Qed.

Lemma evaluate_path_not_object (name : string) (path : list string) (j : json) :
  (forall fields, j <> JObject fields) ->
  evaluate_path (name :: path) j = None.
Proof. intro H. destruct j; try reflexivity. now destruct (H fields). Qed.

(** When no path of the program matches, the row is the all-null row. *)
Lemma transform_row_unmatched (conf : SQLConf) (r : Processed.Row) :
  (forall name path,
      get_json_object (Processed.json_value r) (name :: path) = None) ->
  transform_row conf r = Ok (all_null_row (Processed.key r)).
Proof.
  intro Hnull. unfold transform_row, select_fields, cast_string, cast_timestamp,
    cast_float, cast_from_string, from_json_array_float,
    from_json_map_string_float, json_field.
  rewrite !Hnull. reflexivity.
Qed.

End Rows.

Lemma process_selects (input_df : list Source.Row) :
  process input_df = select_key_value input_df.
Proof. unfold process. apply fillna_identity. Qed.

(** X1.  From the Kafka records to the output rows, [process] then [transform]:
    whenever the frame evaluates, under any configuration, the output rows
    stand in the order of the records, each with the bytes of its record's
    key (or no key where the record has none) and with gpu_temp 0. *)
Theorem output_rows_follow_the_records
  (T : TextRoutines) (conf : SQLConf) (input_df : list Source.Row)
  (out : list Canonical.Row) :
  transform conf (process input_df) = Ok out ->
  List.map (fun c => option_map list_byte_of_string (Canonical.key c)) out
  = List.map Source.key input_df
  /\ Forall (fun c => Canonical.gpu_temp c = 0) out.
Proof.
  intro H. apply mapM_Forall2 in H. rewrite process_selects in H.
  unfold select_key_value in H.
  revert out H. induction input_df as [|r rs IH]; intros out H; simpl in H.
  - inversion H. split; constructor.
  - inversion H as [|a b l l' Hrow Hrest]; subst.
    destruct (transform_row_key conf _ _ Hrow) as [Hk Hg].
    destruct (IH _ Hrest) as [IHk IHg].
    split; [|now constructor].
    simpl. rewrite Hk, IHk. simpl. f_equal.
    destruct (Source.key r) as [bytes|]; simpl; [|reflexivity].
    unfold binary_to_string. now rewrite list_byte_of_string_of_list_byte.
Qed.

Lemma output_rows_follow_the_records_witness :
  exists out,
    transform (T := Reference.routines) session_conf
              (process Scenario.five_records) = Ok out
    /\ List.map (fun c => option_map list_byte_of_string (Canonical.key c)) out
       = List.map Source.key Scenario.five_records
    /\ Forall (fun c => Canonical.gpu_temp c = 0) out.
Proof.
  eexists. split; [vm_compute; reflexivity|].
  apply (output_rows_follow_the_records Reference.routines session_conf
           Scenario.five_records).
  vm_compute. reflexivity.
Defined.

(** X2.  A payload that is a JSON object with no field [cpu] decodes, whenever
    the decoding evaluates, to a row whose three temperature columns are
    NULL, and its cpu_temp is NULL: a missing [cpu] is no error, under any
    configuration. *)
Theorem payload_without_cpu_has_no_temperature
  (T : TextRoutines) (conf : SQLConf) (r : Processed.Row) (s : string)
  (fields : list (string * json)) (i : Intermediate.Row) :
  Processed.json_value r = Some s ->
  parse_json s = Some (JObject fields) ->
  (forall k v, In (k, v) fields -> k <> "cpu"%string) ->
  select_fields conf r = Ok i ->
  Intermediate.thermal_zones i = None
  /\ Intermediate.sensors_cpu i = None
  /\ Intermediate.sensors i = None
  /\ derive_row conf i = Ok (normalize i None).
Proof.
  intros Hv Hp Hcpu Hi.
  assert (Hnull : forall path,
             get_json_object (Processed.json_value r) ("cpu"%string :: path) = None).
  { intro path. rewrite Hv. unfold get_json_object. rewrite Hp.
    now rewrite (evaluate_path_no_field _ path fields Hcpu). }
  revert Hi. unfold select_fields, cast_string, cast_float, cast_from_string,
    from_json_array_float, from_json_map_string_float, json_field.
  rewrite !Hnull. simpl bind.
  destruct (cast_timestamp conf _ r) as [c|e]; simpl; [|discriminate].
  intro H; inversion H; subst; simpl. repeat split.
Qed.

Definition payload_no_cpu : string :=
  "{'device':'pi7', 'collected_at':'2024-01-01T00:00:00Z'}"%string.

Lemma payload_without_cpu_has_no_temperature_witness :
  exists i,
    select_fields (T := Reference.routines) session_conf
                  (Scenario.processed payload_no_cpu) = Ok i
    /\ Intermediate.device i = Some "pi7"%string
    /\ Intermediate.thermal_zones i = None
    /\ Intermediate.sensors_cpu i = None
    /\ Intermediate.sensors i = None
    /\ derive_row session_conf i = Ok (normalize i None).
Proof.
  eexists. split; [vm_compute; reflexivity|]. split; [reflexivity|].
  eapply (payload_without_cpu_has_no_temperature Reference.routines
            session_conf (Scenario.processed payload_no_cpu)).
  - reflexivity.
  - vm_compute. reflexivity.
  - intros k v [H|[H|[]]]; inversion H; discriminate.
  - vm_compute. reflexivity.
Defined.

(** X3.  A payload that is JSON but not an object (an array, a string, a number,
    a literal) matches none of the paths: the record comes out with its key
    and nothing else, under any configuration. *)
Theorem payload_not_an_object_is_all_null
  (T : TextRoutines) (conf : SQLConf) (r : Processed.Row) (s : string) (j : json) :
  Processed.json_value r = Some s ->
  parse_json s = Some j ->
  (forall fields, j <> JObject fields) ->
  transform_row conf r = Ok (all_null_row (Processed.key r)).
Proof.
  intros Hv Hp Hj. apply transform_row_unmatched. intros name path.
  rewrite Hv. unfold get_json_object. rewrite Hp.
  now rewrite (evaluate_path_not_object name path j Hj).
Qed.

Lemma payload_not_an_object_is_all_null_witness :
  transform_row (T := Reference.routines) session_conf
                (Scenario.processed "[40.0, 44.0]"%string)
  = Ok (all_null_row (Some "k1"%string)).
Proof.
  apply (payload_not_an_object_is_all_null Reference.routines session_conf
           (Scenario.processed "[40.0, 44.0]"%string) "[40.0, 44.0]"%string
           (JArray [JNumber "40.0"; JNumber "44.0"])).
  - reflexivity.
  - vm_compute. reflexivity.
  - intros fields H; discriminate H.
Defined.







(* ================================================================== *)
(** * Edge cases of the [cpu_value] column *)
(* ================================================================== *)

(** The same temperature columns under another key, device and instant. *)
Definition relabelled (r : Intermediate.Row) : Intermediate.Row :=
  {| Intermediate.key := Some "k9"%string;
     Intermediate.device := Some "pi9"%string;
     Intermediate.collected_at := None;
     Intermediate.thermal_zones := Intermediate.thermal_zones r;
     Intermediate.sensors_cpu := Intermediate.sensors_cpu r;
     Intermediate.sensors := Intermediate.sensors r |}.

(** A row with an empty [sensors] map and no other temperature. *)
Definition empty_sensors : Intermediate.Row := Scenario.decoded None None (Some []).

(** X5.  [cpu_value] reads the three temperature columns and nothing else: two
    decoded rows that agree on them get the same result, whatever their key,
    device and collected_at, under any configuration. *)
Theorem cpu_value_reads_temperatures_only
  (conf : SQLConf) (r r' : Intermediate.Row) :
  Intermediate.thermal_zones r = Intermediate.thermal_zones r' ->
  Intermediate.sensors_cpu r = Intermediate.sensors_cpu r' ->
  Intermediate.sensors r = Intermediate.sensors r' ->
  cpu_value conf r = cpu_value conf r'.
Proof.
  intros Hz Hc Hs. unfold cpu_value. simpl coalesce.
  unfold when, isNotNull, col, cast_double, thermal_zones_mean, first_sensor.
  now rewrite Hz, Hc, Hs.
Qed.

Lemma cpu_value_reads_temperatures_only_witness :
  cpu_value session_conf Scenario.two_zones
  = cpu_value session_conf (relabelled Scenario.two_zones).
Proof.
  apply (cpu_value_reads_temperatures_only session_conf Scenario.two_zones
           (relabelled Scenario.two_zones)); reflexivity.
Defined.

(** X6.  An empty [thermal_zones] array, by configuration: with ANSI on the
    division by the zero count raises DIVIDE_BY_ZERO, whatever the other two
    columns hold; with ANSI off the branch is NULL and the result is the one
    of the row without [thermal_zones]. *)
Theorem empty_thermal_zones_by_mode (conf : SQLConf) (r : Intermediate.Row) :
  Intermediate.thermal_zones r = Some [] ->
  cpu_value conf r
  = if ansi_enabled conf then Raise DIVIDE_BY_ZERO
    else cpu_value conf (without_thermal_zones r).
Proof.
  intro Hz. unfold cpu_value. simpl coalesce.
  unfold when at 1, isNotNull at 1, col at 1. rewrite Hz. simpl bind.
  unfold thermal_zones_mean, aggregate, size, divide. rewrite Hz.
  simpl. destruct (ansi_enabled conf); reflexivity.
Qed.

Lemma empty_thermal_zones_by_mode_witness :
  cpu_value {| ansi_enabled := true |} Scenario.empty_zones
  = Raise DIVIDE_BY_ZERO.
Proof.
  apply (empty_thermal_zones_by_mode {| ansi_enabled := true |}
           Scenario.empty_zones).
  reflexivity.
Defined.

(** X7.  A null among the zones of a non-empty array never raises: under any
    configuration the sum is NULL, the first branch is NULL, and the result
    is the one of the row without [thermal_zones]. *)
Theorem null_zone_falls_through
  (conf : SQLConf) (r : Intermediate.Row) (l : array float32) :
  Intermediate.thermal_zones r = Some l ->
  In None l ->
  cpu_value conf r = cpu_value conf (without_thermal_zones r).
Proof.
  intros Hz Hin. unfold cpu_value. simpl coalesce.
  unfold when at 1, isNotNull at 1, col at 1. rewrite Hz. simpl bind.
  unfold thermal_zones_mean, aggregate, size, divide. rewrite Hz.
  rewrite (fold_merge_null_element l _ Hin).
  assert (Hlen : (Z.of_nat (List.length l) =? 0) = false).
  { destruct l; [contradiction|]. apply Z.eqb_neq. simpl List.length. lia. }
  rewrite Hlen. reflexivity.
Qed.

Lemma null_zone_falls_through_witness :
  cpu_value {| ansi_enabled := true |} Scenario.null_zone
  = cpu_value {| ansi_enabled := true |} (without_thermal_zones Scenario.null_zone).
Proof.
  apply (null_zone_falls_through {| ansi_enabled := true |} Scenario.null_zone
           [Some 40%float; None]).
  - reflexivity.
  - right; left; reflexivity.
Defined.

(** X8.  An empty [sensors] map with the other two columns NULL: index 1 is past
    the end of the values, so the result is NULL with ANSI off and
    INVALID_ARRAY_INDEX_IN_ELEMENT_AT with ANSI on. *)
Theorem empty_sensors_by_mode (conf : SQLConf) (r : Intermediate.Row) :
  Intermediate.thermal_zones r = None ->
  Intermediate.sensors_cpu r = None ->
  Intermediate.sensors r = Some [] ->
  cpu_value conf r
  = if ansi_enabled conf then Raise INVALID_ARRAY_INDEX_IN_ELEMENT_AT
    else Ok None.
Proof.
  intros Hz Hc Hs. unfold cpu_value. simpl coalesce.
  unfold when, isNotNull, col, cast_double, first_sensor.
  rewrite Hz, Hc, Hs. simpl. destruct (ansi_enabled conf); reflexivity.
Qed.

Lemma empty_sensors_by_mode_witness :
  cpu_value session_conf empty_sensors = Ok None.
Proof.
  apply (empty_sensors_by_mode session_conf empty_sensors); reflexivity.
Defined.

(* ================================================================== *)
(** * Configuration and start-up *)
(* ================================================================== *)

(** [load_config], [Streaming_ETL.__init__], [extract], the option reads of
    [write_to_postgres] and the main block: the part of the program that
    reads the configuration, which is a Python value as [json.load] gives
    it. *)
Module Startup.

(** ** Python values and exceptions *)

Inductive PyValue : Type :=
| PyNone
| PyBool (b : bool)
| PyInt (n : Z)
| PyFloat (x : float)
| PyStr (s : string)
| PyList (items : list PyValue)
| PyDict (entries : list (string * PyValue)).

Inductive PyError : Set :=
| KeyError (key : string)
| TypeError
| ValueError (message : string)
| OSError
| JSONDecodeError.

Inductive outcome (A : Type) : Type :=
| Returns (a : A)
| Raises (e : PyError).
Arguments Returns {A} a.
Arguments Raises {A} e.

Definition and_then {A B : Type} (m : outcome A) (k : A -> outcome B)
  : outcome B :=
  match m with
  | Returns a => k a
  | Raises e => Raises e
  end.

Notation "x <-- m ;; k" := (and_then m (fun x => k))
  (at level 61, m at next level, right associativity).

(** [bool(v)]: None, False, zero, the empty string, list and dict are
    false. *)
Definition truthy (v : PyValue) : bool :=
  match v with
  | PyNone => false
  | PyBool b => b
  | PyInt n => negb (n =? 0)
  | PyFloat x => negb (PrimFloat.eqb x 0%float)
  | PyStr s => negb (String.eqb s "")
  | PyList items => match items with [] => false | _ :: _ => true end
  | PyDict entries => match entries with [] => false | _ :: _ => true end
  end.

(** The entry of a key in a dict, which holds each key once. *)
Fixpoint lookup (key : string) (entries : list (string * PyValue))
  : option PyValue :=
  match entries with
  | [] => None
  | (k, v) :: rest => if String.eqb k key then Some v else lookup key rest
  end.

(** [v[key]] with a string key: KeyError on a dict without the key,
    TypeError on any value that is not a dict. *)
Definition getitem (v : PyValue) (key : string) : outcome PyValue :=
  match v with
  | PyDict entries =>
      match lookup key entries with
      | Some x => Returns x
      | None => Raises (KeyError key)
      end
  | _ => Raises TypeError
  end.

(** [d[key] = x] on the entries of a dict: the entry is replaced where it
    stands, or added at the end. *)
Fixpoint setitem (key : string) (x : PyValue) (entries : list (string * PyValue))
  : list (string * PyValue) :=
  match entries with
  | [] => [(key, x)]
  | (k, v) :: rest =>
      if String.eqb k key then (k, x) :: rest else (k, v) :: setitem key x rest
  end.

(** ** [__init__] *)

(** What [SparkSession.builder] is given. *)
Record Session : Type := {
  app_name : string;
  options : list (string * PyValue);
  sql_conf : SQLConf
}.

Record Self : Type := {
  spark_session_info : PyValue;
  kafka_information : PyValue;
  database_info : PyValue;
  spark : Session
}.

(** The three sections are read, then the two jar settings for the
    builder; [getOrCreate] itself is not looked into. *)
Definition init (config : PyValue) : outcome Self :=
  session_info <-- getitem config "spark_session_info" ;;
  kafka <-- getitem config "kafka_information" ;;
  database <-- getitem config "database_info" ;;
  jars <-- getitem session_info "postgres_jars_path" ;;
  packages <-- getitem session_info "jars_package" ;;
  Returns {| spark_session_info := session_info;
             kafka_information := kafka;
             database_info := database;
             spark := {| app_name := "Streaming_Devices_Data";
                         options := [("spark.jars"%string, jars);
                                     ("spark.jars.packages"%string, packages)];
                         sql_conf := session_conf |} |}.

(** ** [extract] *)

(** The options the Kafka reader is given. *)
Record KafkaStream : Type := {
  bootstrap_servers : PyValue;
  subscribe : PyValue
}.

(** The two options are read in order; [load()] itself is not looked
    into. *)
Definition extract (self : Self) : outcome KafkaStream :=
  host <-- getitem (kafka_information self) "host" ;;
  topic <-- getitem (kafka_information self) "topic" ;;
  Returns {| bootstrap_servers := host; subscribe := topic |}.

(** ** [write_to_postgres], with its reads of [database_info] *)

Record JdbcOptions : Type := {
  url : PyValue;
  dbtable : PyValue;
  user : PyValue;
  password : PyValue;
  driver : PyValue;
  mode : PyValue
}.

Section Writer.

(** The JDBC writer: what [save()] does with the options and the mode it was
    given. *)
Variable Table : Type.
Variable jdbc_write :
  JdbcOptions -> list Canonical.Row -> Table -> SaveOutcome Table.

(** The six values are read in the order of the call chain, on every batch;
    [save()] comes last. *)
Definition write_to_postgres (self : Self) (batch_df : list Canonical.Row)
  (batch_id : Z) (t : Table) : outcome (SaveOutcome Table) :=
  v_url <-- getitem (database_info self) "db_url" ;;
  v_table <-- getitem (database_info self) "table" ;;
  v_user <-- getitem (database_info self) "user" ;;
  v_password <-- getitem (database_info self) "password" ;;
  v_driver <-- getitem (database_info self) "driver" ;;
  v_mode <-- getitem (database_info self) "mode" ;;
  Returns (jdbc_write {| url := v_url; dbtable := v_table; user := v_user;
                         password := v_password; driver := v_driver;
                         mode := v_mode |}
                      batch_df t).

End Writer.

Arguments write_to_postgres {Table} jdbc_write self batch_df batch_id t.

(** ** [load_config] and the main block *)

Section Main.

(** The file system and [json.load]: the text of a file, or the error
    [open] raises; the value of a text, or JSONDecodeError. *)
Variable open_file : string -> outcome string.
Variable json_load : string -> outcome PyValue.

Definition load_config (config_file : string) : outcome PyValue :=
  f <-- open_file config_file ;;
  json_load f.

(** [start_streaming] up to [start()]: [extract] is its only step that can
    raise before the query runs. *)
Definition start (self : Self) : outcome KafkaStream := extract self.

(** The main block, up to the start of the query. *)
Definition main : outcome (Self * KafkaStream) :=
  let config_filepath := "config.json"%string in
  config <-- load_config config_filepath ;;
  if negb (truthy config)
  then Raises (ValueError ("Config from " ++ config_filepath
                           ++ " not fetched or parsed"))
  else
    process_data <-- init config ;;
    stream <-- start process_data ;;
    Returns (process_data, stream).

End Main.

(** The keys of [database_info], in the order [write_to_postgres] reads
    them. *)
Definition jdbc_keys : list string :=
  ["db_url"; "table"; "user"; "password"; "driver"; "mode"]%string.

(** The sections [__init__] reads, in its order. *)
Definition sections : list string :=
  ["spark_session_info"; "kafka_information"; "database_info"]%string.

(** A complete configuration, and a file system that holds it. *)
Definition complete_entries : list (string * PyValue) :=
  [
    ("spark_session_info"%string,
     PyDict [("postgres_jars_path"%string, PyStr "/opt/jars/postgresql.jar");
             ("jars_package"%string,
              PyStr "org.apache.spark:spark-sql-kafka-0-10_2.12:3.5.0")]);
    ("kafka_information"%string,
     PyDict [("host"%string, PyStr "kafka:9092");
             ("topic"%string, PyStr "devices")]);
    ("database_info"%string,
     PyDict [("db_url"%string, PyStr "jdbc:postgresql://db:5432/devices");
             ("table"%string, PyStr "temperatures");
             ("user"%string, PyStr "etl");
             ("password"%string, PyStr "secret");
             ("driver"%string, PyStr "org.postgresql.Driver");
             ("mode"%string, PyStr "append")])
  ].

Definition complete_config : PyValue := PyDict complete_entries.

(** A writer that appends the batch to the relation. *)
Definition appending (o : JdbcOptions) (batch : list Canonical.Row)
  (t : list Canonical.Row) : SaveOutcome (list Canonical.Row) :=
  Saved (t ++ batch).

Definition disk (path : string) : outcome string :=
  if String.eqb path "config.json" then Returns "complete"%string
  else Raises OSError.

Definition loads (config : PyValue) (text : string) : outcome PyValue :=
  Returns config.

End Startup.

(* ================================================================== *)
(** * Properties of the configuration reads *)
(* ================================================================== *)

Section Reads.
Import Startup.

(** The values of several keys of one dict, read in order. *)
Fixpoint getitems (d : PyValue) (keys : list string) : outcome (list PyValue) :=
  match keys with
  | [] => Returns []
  | k :: keys' => v <-- getitem d k ;; vs <-- getitems d keys' ;; Returns (v :: vs)
  end.

Lemma getitems_first_failure (d : PyValue) (before after : list string)
  (key : string) (e : PyError) :
  (forall k, In k before -> exists v, getitem d k = Returns v) ->
  getitem d key = Raises e ->
  getitems d (before ++ key :: after) = Raises e.
Proof.
  intros Hbefore Hkey. induction before as [|b before IH]; simpl.
  - now rewrite Hkey.
  - destruct (Hbefore b (or_introl eq_refl)) as [v ->]. simpl.
    rewrite IH; [reflexivity|]. intros k Hk. apply Hbefore. now right.
Qed.

Lemma lookup_setitem_same (key : string) (x : PyValue)
  (entries : list (string * PyValue)) :
  lookup key (setitem key x entries) = Some x.
Proof.
  induction entries as [|[k v] rest IH]; simpl.
  - now rewrite String.eqb_refl.
  - destruct (String.eqb k key) eqn:E; simpl; rewrite E; [reflexivity | exact IH].
Qed.

Lemma lookup_setitem_other (key k' : string) (x : PyValue)
  (entries : list (string * PyValue)) :
  k' <> key -> lookup k' (setitem key x entries) = lookup k' entries.
Proof.
  intro Hne. induction entries as [|[k v] rest IH]; simpl.
  - destruct (String.eqb key k') eqn:E; [|reflexivity].
    apply String.eqb_eq in E. congruence.
  - destruct (String.eqb k key) eqn:E; simpl.
    + apply String.eqb_eq in E; subst k.
      destruct (String.eqb key k') eqn:E'; [|reflexivity].
      apply String.eqb_eq in E'. congruence.
    + now rewrite IH.
Qed.

Lemma init_reads_sections (config : PyValue) :
  init config
  = vs <-- getitems config sections ;;
    match vs with
    | [session_info; kafka; database] =>
        jars <-- getitem session_info "postgres_jars_path" ;;
        packages <-- getitem session_info "jars_package" ;;
        Returns {| spark_session_info := session_info;
                   kafka_information := kafka;
                   database_info := database;
                   spark := {| app_name := "Streaming_Devices_Data";
                               options := [("spark.jars"%string, jars);
                                           ("spark.jars.packages"%string, packages)];
                               sql_conf := session_conf |} |}
    | _ => Raises TypeError
    end.
Proof.
  unfold init, sections. simpl getitems.
  destruct (getitem config "spark_session_info"); simpl; [|reflexivity].
  destruct (getitem config "kafka_information"); simpl; [|reflexivity].
  destruct (getitem config "database_info"); simpl; reflexivity.
Qed.

Lemma write_to_postgres_reads_keys {Table : Type}
  (jdbc_write : JdbcOptions -> list Canonical.Row -> Table -> SaveOutcome Table)
  (self : Self) (batch_df : list Canonical.Row) (batch_id : Z) (t : Table) :
  Startup.write_to_postgres jdbc_write self batch_df batch_id t
  = vs <-- getitems (database_info self) jdbc_keys ;;
    match vs with
    | [v_url; v_table; v_user; v_password; v_driver; v_mode] =>
        Returns (jdbc_write {| url := v_url; dbtable := v_table; user := v_user;
                               password := v_password; driver := v_driver;
                               mode := v_mode |}
                            batch_df t)
    | _ => Raises TypeError
    end.
Proof.
  unfold Startup.write_to_postgres, jdbc_keys. simpl getitems.
  destruct (getitem (database_info self) "db_url"); simpl; [|reflexivity].
  destruct (getitem (database_info self) "table"); simpl; [|reflexivity].
  destruct (getitem (database_info self) "user"); simpl; [|reflexivity].
  destruct (getitem (database_info self) "password"); simpl; [|reflexivity].
  destruct (getitem (database_info self) "driver"); simpl; [|reflexivity].
  destruct (getitem (database_info self) "mode"); simpl; reflexivity.
Qed.

End Reads.

Import Startup.

(** X11.  A loaded configuration that is not a non-empty dict never reaches
    Spark: a false value (null, false, 0, an empty string, list or object)
    ends the main block with ValueError and the message naming the file; any
    other value that is not a dict ends it with TypeError at the first
    section read. *)
Theorem main_rejects_unusable_config
  (open_file : string -> outcome string) (json_load : string -> outcome PyValue)
  (text : string) (config : PyValue) :
  open_file "config.json"%string = Returns text ->
  json_load text = Returns config ->
  (forall entries, config <> PyDict entries) \/ config = PyDict [] ->
  main open_file json_load
  = if truthy config then Raises TypeError
    else Raises (ValueError "Config from config.json not fetched or parsed").
Proof.
  intros Hopen Hload Hshape. unfold main, load_config.
  rewrite Hopen. simpl. rewrite Hload. simpl.
  destruct Hshape as [Hnot | ->]; [|reflexivity].
  destruct (truthy config); simpl; [|reflexivity].
  destruct config; try reflexivity. now destruct (Hnot entries).
Qed.

Lemma main_rejects_unusable_config_witness :
  main disk (loads (PyDict []))
  = Raises (ValueError "Config from config.json not fetched or parsed")
  /\ main disk (loads (PyList [PyInt 1])) = Raises TypeError.
Proof.
  split.
  - apply (main_rejects_unusable_config disk (loads (PyDict [])) "complete"
             (PyDict [])); [reflexivity | reflexivity | right; reflexivity].
  - apply (main_rejects_unusable_config disk (loads (PyList [PyInt 1]))
             "complete" (PyList [PyInt 1]));
      [reflexivity | reflexivity | left; intros entries H; discriminate H].
Defined.

(** X12.  [__init__] reads the three sections in the order spark_session_info,
    kafka_information, database_info: on a dict, the first of them that is
    missing is the one the KeyError names. *)
Theorem init_names_first_missing_section
  (entries : list (string * PyValue)) (before after : list string)
  (key : string) :
  sections = before ++ key :: after ->
  (forall k, In k before -> exists v, lookup k entries = Some v) ->
  lookup key entries = None ->
  init (PyDict entries) = Raises (KeyError key).
Proof.
  intros Hkeys Hbefore Hkey. rewrite init_reads_sections, Hkeys.
  rewrite (getitems_first_failure (PyDict entries) before after key (KeyError key));
    [reflexivity | | simpl; now rewrite Hkey].
  intros k Hk. destruct (Hbefore k Hk) as [v Hv]. exists v. simpl. now rewrite Hv.
Qed.

Lemma init_names_first_missing_section_witness :
  init (PyDict [("spark_session_info"%string, PyDict []);
                ("database_info"%string, PyDict [])])
  = Raises (KeyError "kafka_information").
Proof.
  apply (init_names_first_missing_section _ ["spark_session_info"%string]
           ["database_info"%string] "kafka_information"%string).
  - reflexivity.
  - intros k [<- | []]. eexists. reflexivity.
  - reflexivity.
Defined.

(** X13.  [write_to_postgres] reads db_url, table, user, password, driver and mode
    from [database_info] on each batch, in that order: when one cannot be
    read (the key is missing, or [database_info] is no dict) and those
    before it can, the batch function raises that error and the writer is
    not called. *)
Theorem write_to_postgres_names_first_missing_key
  (Table : Type)
  (jdbc_write : JdbcOptions -> list Canonical.Row -> Table -> SaveOutcome Table)
  (self : Self) (batch_df : list Canonical.Row) (batch_id : Z) (t : Table)
  (before after : list string) (key : string) (e : PyError) :
  jdbc_keys = before ++ key :: after ->
  (forall k, In k before -> exists v, getitem (database_info self) k = Returns v) ->
  getitem (database_info self) key = Raises e ->
  Startup.write_to_postgres jdbc_write self batch_df batch_id t = Raises e.
Proof.
  intros Hkeys Hbefore Hkey. rewrite write_to_postgres_reads_keys, Hkeys.
  now rewrite (getitems_first_failure _ before after key e Hbefore Hkey).
Qed.

Lemma write_to_postgres_names_first_missing_key_witness :
  Startup.write_to_postgres appending
    {| spark_session_info := PyDict [];
       kafka_information := PyDict [];
       database_info := PyDict [("db_url"%string, PyStr "jdbc:postgresql://db/x");
                                ("user"%string, PyStr "etl")];
       spark := {| app_name := "Streaming_Devices_Data"; options := [];
                   sql_conf := session_conf |} |}
    [all_null_row None] 0 []
  = Raises (KeyError "table").
Proof.
  apply (write_to_postgres_names_first_missing_key (list Canonical.Row)
           appending _ [all_null_row None] 0 [] ["db_url"%string]
           ["user"; "password"; "driver"; "mode"]%string "table"%string
           (KeyError "table")).
  - reflexivity.
  - intros k [<- | []]. eexists. reflexivity.
  - reflexivity.
Defined.

(** X14.  The main block does not look into [database_info]: when it starts the
    query with one configuration, it starts it with the same configuration
    whose database_info is any other value, that value stored as it is. *)
Theorem main_does_not_read_database_info
  (open_file : string -> outcome string)
  (json_load json_load' : string -> outcome PyValue)
  (text : string) (entries : list (string * PyValue)) (d' : PyValue)
  (self : Self) (stream : KafkaStream) :
  open_file "config.json"%string = Returns text ->
  json_load text = Returns (PyDict entries) ->
  json_load' text = Returns (PyDict (setitem "database_info" d' entries)) ->
  main open_file json_load = Returns (self, stream) ->
  main open_file json_load'
  = Returns ({| spark_session_info := spark_session_info self;
                kafka_information := kafka_information self;
                database_info := d';
                spark := spark self |}, stream).
Proof.
  intros Hopen Hload Hload'. unfold main, load_config.
  rewrite Hopen. cbn [and_then]. rewrite Hload, Hload'. cbn [and_then].
  assert (Htruthy : truthy (PyDict (setitem "database_info" d' entries)) = true).
  { destruct entries as [|[k v] rest]; simpl; [reflexivity|].
    now destruct (String.eqb k "database_info"). }
  rewrite Htruthy.
  destruct (truthy (PyDict entries)); cbn [negb]; cbv iota;
    [|intro H; discriminate H].
  unfold init, getitem.
  rewrite (lookup_setitem_other "database_info" "spark_session_info" d' entries)
    by discriminate.
  rewrite (lookup_setitem_other "database_info" "kafka_information" d' entries)
    by discriminate.
  rewrite lookup_setitem_same.
  destruct (lookup "spark_session_info" entries) as [s|]; simpl; [|intro H; discriminate H].
  destruct (lookup "kafka_information" entries) as [k|]; simpl; [|intro H; discriminate H].
  destruct (lookup "database_info" entries) as [d|]; simpl; [|intro H; discriminate H].
  fold (getitem s "postgres_jars_path"). fold (getitem s "jars_package").
  destruct (getitem s "postgres_jars_path") as [jars|]; simpl; [|intro H; discriminate H].
  destruct (getitem s "jars_package") as [packages|]; simpl; [|intro H; discriminate H].
  unfold start, extract. simpl.
  destruct (getitem k "host") as [host|]; simpl; [|intro H; discriminate H].
  destruct (getitem k "topic") as [topic|]; simpl; [|intro H; discriminate H].
  intro H. inversion H; subst. reflexivity.
Qed.

Lemma main_does_not_read_database_info_witness :
  exists (self : Self) (stream : KafkaStream),
    main disk (loads complete_config) = Returns (self, stream)
    /\ main disk (loads (PyDict (setitem "database_info" PyNone complete_entries)))
       = Returns ({| spark_session_info := spark_session_info self;
                     kafka_information := kafka_information self;
                     database_info := PyNone;
                     spark := spark self |}, stream).
Proof.
  eexists. eexists. split; [vm_compute; reflexivity|].
  eapply (main_does_not_read_database_info disk (loads complete_config)
            (loads (PyDict (setitem "database_info" PyNone complete_entries)))
            "complete" complete_entries PyNone).
  - reflexivity.
  - reflexivity.
  - reflexivity.
  - vm_compute. reflexivity.
Defined.

(* ================================================================== *)
(** * Properties of the decoding *)
(* ================================================================== *)

Section Decoding.
Context {T : TextRoutines}.

Lemma evaluate_path_first_field (name : string) (v : json)
  (before after : list (string * json)) :
  (forall k v', In (k, v') before -> k <> name) ->
  v <> JNull ->
  evaluate_path [name] (JObject (before ++ (name, v) :: after)) = Some v.
Proof.
  intros Habsent Hv. simpl.
  induction before as [|[k v'] before IH]; simpl.
  - rewrite String.eqb_refl. destruct v; try reflexivity. congruence.
  - destruct (String.eqb k name) eqn:E.
    + apply String.eqb_eq in E. exfalso.
      apply (Habsent k v'); [now left | exact E].
    + apply IH. intros k' w Hin. apply (Habsent k' w). now right.
Qed.

End Decoding.

(** X9.  The device is copied from the payload as it is: when the payload is an
    object whose first field named [device] holds a string, the decoded
    device is that string, under any configuration under which the row
    decodes. *)
Theorem device_is_the_payload_string
  (T : TextRoutines) (conf : SQLConf) (r : Processed.Row) (s d : string)
  (before after : list (string * json)) (i : Intermediate.Row) :
  Processed.json_value r = Some s ->
  parse_json s = Some (JObject (before ++ ("device"%string, JString d) :: after)) ->
  (forall k v, In (k, v) before -> k <> "device"%string) ->
  select_fields conf r = Ok i ->
  Intermediate.device i = Some d.
Proof.
  intros Hv Hp Hfirst.
  assert (Hdev : get_json_object (Processed.json_value r) ["device"%string] = Some d).
  { rewrite Hv. unfold get_json_object. rewrite Hp.
    rewrite (evaluate_path_first_field "device" (JString d) before after Hfirst)
      by discriminate.
    reflexivity. }
  intro Hi. destruct (select_fields_ok conf r i Hi) as [c [z [x [_ [_ [_ ->]]]]]].
  exact Hdev.
Qed.

Lemma device_is_the_payload_string_witness :
  exists i,
    select_fields (T := Reference.routines) session_conf
                  (Scenario.processed Scenario.payload_c) = Ok i
    /\ Intermediate.device i = Some "pi3"%string.
Proof.
  eexists. split; [vm_compute; reflexivity|].
  eapply (device_is_the_payload_string Reference.routines session_conf
            (Scenario.processed Scenario.payload_c) _ "pi3" []).
  - reflexivity.
  - vm_compute. reflexivity.
  - intros k v [].
  - vm_compute. reflexivity.
Defined.



